(** * ECG dashboard: threshold alerts, rolling chart history and the
      WebSocket connection hook

    A shallow embedding of the dashboard's logic:

    - [utils/healthAlerts.ts]: [analyzeHealthData], the pure mapping from
      one reading to its list of health alerts;
    - [components/ECGMonitor.tsx]: the effect that appends each new reading
      to the chart history (last 50 kept) and recomputes the alerts;
    - [hooks/useWebSocket.ts]: the connection hook, as a transition system
      over the hook's state, its two refs and the host's sockets and timers.
    - [components/ECGHistory.tsx], [components/GeminiPredictor.tsx] with
      [utils/geminiApi.ts], and [App.tsx]: the state and the handlers of
      the history view, the AI predictor and the application shell.

    A JavaScript [number] is an IEEE 754 binary64 value, so readings carry
    Rocq's primitive floats and the comparisons are the primitive ones. *)

From Stdlib Require Import Floats ZArith Lia.
From stdpp Require Import base option list strings sorting.

(** ** JavaScript numbers and their relational operators *)

Module JsNumber.

Definition number := float.
Bind Scope float_scope with number.

(** [x > y] and [x < y] of JavaScript on numbers; both are [false] as
    soon as one side is NaN. *)
Definition gt (x y : number) : bool := (y <? x)%float.
Definition lt (x y : number) : bool := (x <? y)%float.
(** [x <= y], used to state the closed ends of the spec's intervals. *)
Definition le (x y : number) : bool := (x <=? y)%float.

Definition is_nan (x : number) : bool := negb (x =? x)%float.

Arguments gt (x y)%_float.
Arguments lt (x y)%_float.
Arguments le (x y)%_float.

End JsNumber.

(** ** [types/index.ts] *)

Module Types.
Import JsNumber.

(** [interface ECGReading]; the two optional fields are [option]s. *)
Record ECGReading := {
  id : option string;
  ecg : number;
  bpm : number;
  rr : number;
  hrv : number;
  temperature : number;
  timestamp : string;
  patientCode : option string;
}.

(** The values [JSON.parse] returns.  An object that has the fields of
    [ECGReading], each of its type, is given by that record;
    [JsonObject] is an object of any other shape, by its members. *)
#[warnings="-register-all"]
Inductive Json :=
| JsonNull
| JsonBoolean (b : bool)
| JsonNumber (n : number)
| JsonString (s : string)
| JsonArray (items : list Json)
| JsonObject (members : list (string * Json))
| JsonReading (reading : ECGReading).

(** A value in a condition, as in [if (data)]: [null], [false], [0],
    [-0], NaN and the empty string count as false. *)
Definition truthy (v : Json) : bool :=
  match v with
  | JsonNull => false
  | JsonBoolean b => b
  | JsonNumber n => negb (n =? 0)%float && negb (is_nan n)
  | JsonString EmptyString => false
  | JsonString (String _ _) => true
  | JsonArray _ | JsonObject _ | JsonReading _ => true
  end.

Inductive AlertType := tachycardia | bradycardia | fever | normal.
Inductive Severity := low | medium | high.

(** [interface HealthAlert] *)
Record HealthAlert := {
  type : AlertType;
  message : string;
  severity : Severity;
}.

#[export] Instance AlertType_eq_dec : EqDecision AlertType.
Proof. solve_decision. Defined.
#[export] Instance Severity_eq_dec : EqDecision Severity.
Proof. solve_decision. Defined.

End Types.

(** ** [utils/healthAlerts.ts] *)

Module HealthAlerts.
Import JsNumber Types.

(** [arr.push(x)] on the local array, as a new list. *)
Definition push {A} (arr : list A) (x : A) : list A := arr ++ [x].

(** The alerts of one kind in an output, in order. *)
Definition of_type (k : AlertType) (alerts : list HealthAlert) :
  list HealthAlert :=
  filter (fun a => type a = k) alerts.

Section Evaluator.

(** The string a template literal puts in place of [${n}] for a number
    [n] (JavaScript's Number::toString), which the evaluator only
    splices into messages. *)
Variable ToString : number -> string.

Definition analyzeHealthData (reading : ECGReading) : list HealthAlert :=
  let alerts : list HealthAlert := [] in
  (* Check for tachycardia (high heart rate) *)
  let alerts :=
    if gt (bpm reading) 100 then
      push alerts {|
        type := tachycardia;
        message := "High heart rate detected: " +:+ ToString (bpm reading)
                     +:+ " BPM (Normal: 60-100)";
        severity := if gt (bpm reading) 120 then high else medium |}
    else alerts in
  (* Check for bradycardia (low heart rate) *)
  let alerts :=
    if lt (bpm reading) 60 then
      push alerts {|
        type := bradycardia;
        message := "Low heart rate detected: " +:+ ToString (bpm reading)
                     +:+ " BPM (Normal: 60-100)";
        severity := if lt (bpm reading) 40 then high else medium |}
    else alerts in
  (* Check for fever *)
  let alerts :=
    if gt (temperature reading) 37.5 then
      push alerts {|
        type := fever;
        message := "Elevated temperature: "
                     +:+ ToString (temperature reading)
                     +:+ "°C (Normal: <37.5°C)";
        severity := if gt (temperature reading) 39 then high else medium |}
    else alerts in
  (* If no alerts, return normal status *)
  let alerts :=
    if decide (length alerts = 0) then
      push alerts {|
        type := normal;
        message := "All vital signs within normal range";
        severity := low |}
    else alerts in
  alerts.

End Evaluator.

(** [getAlertColor], the class names for a severity string. *)
Definition getAlertColor (severity : string) : string :=
  if decide (severity = "high") then "text-red-600 bg-red-50 border-red-200"
  else if decide (severity = "medium")
       then "text-yellow-600 bg-yellow-50 border-yellow-200"
  else if decide (severity = "low")
       then "text-green-600 bg-green-50 border-green-200"
  else "text-gray-600 bg-gray-50 border-gray-200".

End HealthAlerts.

(** ** [components/ECGMonitor.tsx]: the data effect *)

Module ECGMonitor.
Import JsNumber Types HealthAlerts.

(** [arr.slice(start)] for an integer [start]: a negative [start] counts
    from the end, and the first index kept is clamped to [0, length]. *)
Definition slice {A} (start : Z) (arr : list A) : list A :=
  let len := Z.of_nat (length arr) in
  let k := if (start <? 0)%Z then Z.max (len + start) 0
           else Z.min start len in
  drop (Z.to_nat k) arr.

(** [ECGReading & { time: string }], an entry of the chart history. *)
Record HistoryEntry := {
  reading : ECGReading;
  time : string;
}.

(** The three [useState] cells of the component; [lastUpdate] holds the
    clock value read by [new Date()]. *)
Record MonitorState := {
  ecgHistory : list HistoryEntry;
  alerts : list HealthAlert;
  lastUpdate : option N;
}.

Definition initial : MonitorState :=
  {| ecgHistory := []; alerts := []; lastUpdate := None |}.

(** The updater passed to [setEcgHistory]. *)
Definition appendReading (prev : list HistoryEntry) (newReading : HistoryEntry)
  : list HistoryEntry :=
  let updated := slice (-50) (prev ++ [newReading]) in (* Keep last 50 readings *)
  updated.

Section Effect.

Variable ToString : number -> string.
(** [new Date(ts).toLocaleTimeString()] *)
Variable toLocaleTimeString : string -> string.

(** The body of [useEffect(..., [data])], run with the current [data]. *)
Definition onData (data : option ECGReading) (now : N) (st : MonitorState)
  : MonitorState :=
  match data with
  | Some data =>
      let timeString := toLocaleTimeString (timestamp data) in
      let newReading := {| reading := data; time := timeString |} in
      {| ecgHistory := appendReading (ecgHistory st) newReading;
         alerts := analyzeHealthData ToString data;
         lastUpdate := Some now |}
  | None => st
  end.

(** The history after a stream of readings, from the empty history. *)
Definition historyAfter (rs : list ECGReading) : list HistoryEntry :=
  ecgHistory (foldl (fun st r => onData (Some r) 0%N st) initial rs).

End Effect.

End ECGMonitor.

(** ** [hooks/useWebSocket.ts]

    The hook's three state cells and two refs, together with the part of
    the host they act on: the sockets created so far with their ready
    states, the timeouts set so far, and the clock.  A socket's handle is
    its index in [sockets], a timeout's handle its index in [timeouts];
    both tables only grow, so a handle is never reused.  Handles are
    truthy, so the [if (ref.current)] tests of the cleanup are tests
    against [null].  Calls to [console] are left out. *)

Module UseWebSocket.
Import Types.

Inductive ConnectionStatus := connecting | connected | disconnected.

(** [WebSocket.readyState] *)
Inductive ReadyState := CONNECTING | OPEN | CLOSING | CLOSED.

(** A timeout set by [setTimeout]: waiting to run at [due], already run,
    or cancelled by [clearTimeout]. *)
Inductive Timeout := Pending (due : N) | Fired | Cleared.

Record State := {
  (* useState; [data] is [null] or whatever a message parsed to *)
  data : Json;
  connectionStatus : ConnectionStatus;
  error : option string;
  (* useRef *)
  ws : option nat;
  reconnectTimeoutRef : option nat;
  (* host *)
  sockets : list ReadyState;
  timeouts : list Timeout;
  clock : N;
}.

#[export] Instance ReadyState_eq_dec : EqDecision ReadyState.
Proof. solve_decision. Defined.
#[export] Instance ConnectionStatus_eq_dec : EqDecision ConnectionStatus.
Proof. solve_decision. Defined.

Definition is_pending (t : Timeout) : bool :=
  match t with Pending _ => true | _ => false end.

(** The state before the first effect runs. *)
Definition initial : State :=
  {| data := JsonNull; connectionStatus := disconnected; error := None;
     ws := None; reconnectTimeoutRef := None;
     sockets := []; timeouts := []; clock := 0%N |}.

(** *** State setters and ref assignments *)

Definition setData (v : Json) (s : State) : State :=
  {| data := v; connectionStatus := connectionStatus s; error := error s;
     ws := ws s; reconnectTimeoutRef := reconnectTimeoutRef s;
     sockets := sockets s; timeouts := timeouts s; clock := clock s |}.

Definition setConnectionStatus (v : ConnectionStatus) (s : State) : State :=
  {| data := data s; connectionStatus := v; error := error s;
     ws := ws s; reconnectTimeoutRef := reconnectTimeoutRef s;
     sockets := sockets s; timeouts := timeouts s; clock := clock s |}.

Definition setError (v : option string) (s : State) : State :=
  {| data := data s; connectionStatus := connectionStatus s; error := v;
     ws := ws s; reconnectTimeoutRef := reconnectTimeoutRef s;
     sockets := sockets s; timeouts := timeouts s; clock := clock s |}.

Definition set_ws (v : option nat) (s : State) : State :=
  {| data := data s; connectionStatus := connectionStatus s; error := error s;
     ws := v; reconnectTimeoutRef := reconnectTimeoutRef s;
     sockets := sockets s; timeouts := timeouts s; clock := clock s |}.

Definition set_reconnectTimeoutRef (v : option nat) (s : State) : State :=
  {| data := data s; connectionStatus := connectionStatus s; error := error s;
     ws := ws s; reconnectTimeoutRef := v;
     sockets := sockets s; timeouts := timeouts s; clock := clock s |}.

Definition set_sockets (v : list ReadyState) (s : State) : State :=
  {| data := data s; connectionStatus := connectionStatus s; error := error s;
     ws := ws s; reconnectTimeoutRef := reconnectTimeoutRef s;
     sockets := v; timeouts := timeouts s; clock := clock s |}.

Definition set_timeouts (v : list Timeout) (s : State) : State :=
  {| data := data s; connectionStatus := connectionStatus s; error := error s;
     ws := ws s; reconnectTimeoutRef := reconnectTimeoutRef s;
     sockets := sockets s; timeouts := v; clock := clock s |}.

Definition set_clock (v : N) (s : State) : State :=
  {| data := data s; connectionStatus := connectionStatus s; error := error s;
     ws := ws s; reconnectTimeoutRef := reconnectTimeoutRef s;
     sockets := sockets s; timeouts := timeouts s; clock := v |}.

(** *** Host operations *)

(** [new WebSocket(url)] when it returns: a new socket, connecting. *)
Definition new_WebSocket (s : State) : nat * State :=
  (length (sockets s), set_sockets (sockets s ++ [CONNECTING]) s).

(** [socket.close()]: starts the closing handshake of a socket that is
    connecting or open; nothing on one that is closing or closed. *)
Definition WebSocket_close (k : nat) (s : State) : State :=
  match sockets s !! k with
  | Some CONNECTING | Some OPEN => set_sockets (<[k := CLOSING]> (sockets s)) s
  | _ => s
  end.

(** [setTimeout(callback, ms)]; the only callback of the hook is
    [connect], so a timeout is its due time. *)
Definition setTimeout (ms : N) (s : State) : nat * State :=
  (length (timeouts s),
   set_timeouts (timeouts s ++ [Pending (clock s + ms)%N]) s).

(** [clearTimeout(t)]: cancels [t] if it has not run yet. *)
Definition clearTimeout (t : nat) (s : State) : State :=
  match timeouts s !! t with
  | Some (Pending _) => set_timeouts (<[t := Cleared]> (timeouts s)) s
  | _ => s
  end.

(** *** Observations on the host tables *)

Definition all_closed (s : State) : Prop :=
  Forall (fun st => st = CLOSED) (sockets s).

Definition none_pending (s : State) : Prop :=
  Forall (fun t => is_pending t = false) (timeouts s).

(** Nothing is in flight: no socket can raise an event and no timeout can
    fire. *)
Definition dead (s : State) : Prop := all_closed s /\ none_pending s.

(** No socket other than [k] is connecting, open or closing. *)
Definition only_live (k : nat) (s : State) : Prop :=
  Forall (fun st => st = CLOSED) (<[k := CLOSED]> (sockets s)).

(** At most one thing is in flight, and the refs know it: a socket that is
    not closed is the one in [ws] and then no timeout is pending; a
    pending timeout is the one in [reconnectTimeoutRef] and then every
    socket is closed. *)
Definition single_connection (s : State) : Prop :=
  (forall j st, sockets s !! j = Some st -> st <> CLOSED ->
     ws s = Some j /\ none_pending s) /\
  (forall t due, timeouts s !! t = Some (Pending due) ->
     reconnectTimeoutRef s = Some t /\ all_closed s).

Section Hook.

Variable url : string.
(** Whether [new WebSocket(u)] returns a socket rather than throwing. *)
Variable WebSocket_accepts : string -> bool.
(** [JSON.parse]: the value a text parses to, [None] when it throws.  The
    annotation at its call checks nothing: whatever value comes back is
    stored. *)
Variable JSON_parse : string -> option Json.

(** [connect], also exported as [reconnect]. *)
Definition connect (s : State) : State :=
  let s := setConnectionStatus connecting s in
  let s := setError None s in
  if WebSocket_accepts url then
    let '(k, s) := new_WebSocket s in
    (* the four handlers below are attached to socket [k] *)
    set_ws (Some k) s
  else
    let s := setError (Some "Failed to connect") s in
    setConnectionStatus disconnected s.

Definition reconnect : State -> State := connect.

Definition onopen (s : State) : State :=
  let s := setConnectionStatus connected s in
  setError None s.

Definition onmessage (event_data : string) (s : State) : State :=
  match JSON_parse event_data with
  | Some reading => setData reading s
  | None => setError (Some "Invalid data format received") s
  end.

Definition onclose (s : State) : State :=
  let s := setConnectionStatus disconnected s in
  (* Auto-reconnect after 3 seconds *)
  let '(t, s) := setTimeout 3000%N s in
  set_reconnectTimeoutRef (Some t) s.

Definition onerror (s : State) : State :=
  let s := setError (Some "Connection error") s in
  setConnectionStatus disconnected s.

(** The function returned by the effect. *)
Definition cleanup (s : State) : State :=
  let s := match reconnectTimeoutRef s with
           | Some t => clearTimeout t s
           | None => s
           end in
  match ws s with
  | Some k => WebSocket_close k s
  | None => s
  end.

(** The first run of the effect. *)
Definition mount : State := connect initial.

(** *** Events

    What the host and the component's user can do to the hook.  A socket
    event is delivered to the handlers [connect] attached to that socket,
    whether or not it is still the one in [ws]. *)

Inductive Event :=
| SocketOpen (k : nat)
| SocketMessage (k : nat) (payload : string)
| SocketError (k : nat)
| SocketClose (k : nat)
| TimeoutFires (t : nat)
| Elapse (ms : N)
| ManualReconnect
| Unmount.

(** [step e s] is [None] when [e] cannot happen in [s]. *)
Definition step (e : Event) (s : State) : option State :=
  match e with
  | SocketOpen k =>
      match sockets s !! k with
      | Some CONNECTING => Some (onopen (set_sockets (<[k := OPEN]> (sockets s)) s))
      | _ => None
      end
  | SocketMessage k payload =>
      match sockets s !! k with
      | Some OPEN => Some (onmessage payload s)
      | _ => None
      end
  | SocketError k =>
      match sockets s !! k with
      | Some CONNECTING | Some OPEN | Some CLOSING => Some (onerror s)
      | _ => None
      end
  | SocketClose k =>
      match sockets s !! k with
      | Some CONNECTING | Some OPEN | Some CLOSING =>
          Some (onclose (set_sockets (<[k := CLOSED]> (sockets s)) s))
      | _ => None
      end
  | TimeoutFires t =>
      match timeouts s !! t with
      | Some (Pending due) =>
          if decide (due <= clock s)%N
          then Some (connect (set_timeouts (<[t := Fired]> (timeouts s)) s))
          else None
      | _ => None
      end
  | Elapse ms => Some (set_clock (clock s + ms)%N s)
  | ManualReconnect => Some (reconnect s)
  | Unmount => Some (cleanup s)
  end.

Fixpoint run (es : list Event) (s : State) : option State :=
  match es with
  | [] => Some s
  | e :: es => match step e s with
               | Some s' => run es s'
               | None => None
               end
  end.

(** Events of the host, as opposed to the two actions of the component. *)
Definition host_event (e : Event) : bool :=
  match e with
  | ManualReconnect | Unmount => false
  | _ => true
  end.

Definition is_elapse (e : Event) : Prop := exists ms, e = Elapse ms.

(** The effect run again after a change of its dependency: the cleanup of
    the previous run, then [connect]. *)
Definition rerun_effect (s : State) : State := connect (cleanup s).

End Hook.

End UseWebSocket.

(** ** The monitor view: the hook and the data effect together

    [ECGMonitor] calls the hook and declares the data effect with the
    dependency list [[data]].  The handlers of the hook only queue state
    updates; the effect runs when the component is committed, and only if
    [data] is then another value than at the commit before, compared with
    [Object.is].  Any number of events can be handled between two
    commits. *)

Module Dashboard.
Import JsNumber Types.

(** The three cells of the component.  They are declared with the types
    of [MonitorState], but the effect fills them from whatever [data]
    holds: once it has run on a value that passes [if (data)] and is not
    a reading, the history holds an entry that is no reading, which
    [Untyped] stands for. *)
Inductive View :=
| Typed (m : ECGMonitor.MonitorState)
| Untyped.

Record App := {
  hook : UseWebSocket.State;
  (* how many values [setData] has stored: each [JSON.parse] allocates,
     so this number is the identity of the object or array in [data] *)
  stored : nat;
  (* [data] and its identity at the last commit *)
  rendered : Json * nat;
  mounted : bool;
  view : View;
}.

Definition is_object (v : Json) : bool :=
  match v with
  | JsonArray _ | JsonObject _ | JsonReading _ => true
  | _ => false
  end.

(** [Object.is] on parsed values with their identities: primitives by
    value (NaN is NaN, 0 is not -0), objects and arrays by identity. *)
Definition Object_is (x y : Json * nat) : bool :=
  match x.1, y.1 with
  | JsonNull, JsonNull => true
  | JsonBoolean a, JsonBoolean b => bool_decide (a = b)
  | JsonNumber a, JsonNumber b => PrimFloat.Leibniz.eqb a b
  | JsonString a, JsonString b => bool_decide (a = b)
  | _, _ => is_object x.1 && is_object y.1 && bool_decide (x.2 = y.2)
  end.

Inductive Event :=
| Hook (e : UseWebSocket.Event)
| Render.

Section App.

Variable ToString : number -> string.
Variable toLocaleTimeString : string -> string.
Variable url : string.
Variable WebSocket_accepts : string -> bool.
Variable JSON_parse : string -> option Json.

(** The state after the first commit: the hook's effect has called
    [connect], and the data effect has seen [null] and done nothing. *)
Definition start : App :=
  {| hook := UseWebSocket.mount url WebSocket_accepts;
     stored := 0;
     rendered := (JsonNull, 0);
     mounted := true;
     view := Typed ECGMonitor.initial |}.

(** The body of [useEffect(..., [data])] on the cells of the component. *)
Definition effect (data : Json) (now : N) (v : View) : View :=
  if truthy data then
    match data, v with
    | JsonReading data, Typed m =>
        Typed (ECGMonitor.onData ToString toLocaleTimeString
                 (Some data) now m)
    | _, _ => Untyped
    end
  else v.

(** A commit of the component: the effect runs if [data] is not the
    value of the last commit. *)
Definition render (a : App) : option App :=
  if mounted a then
    let current := (UseWebSocket.data (hook a), stored a) in
    if Object_is (rendered a) current then Some a
    else Some {| hook := hook a;
                 stored := stored a;
                 rendered := current;
                 mounted := mounted a;
                 view := effect (UseWebSocket.data (hook a))
                           (UseWebSocket.clock (hook a)) (view a) |}
  else None.

(** Whether handling [e] calls [setData]. *)
Definition stores (e : UseWebSocket.Event) : bool :=
  match e with
  | UseWebSocket.SocketMessage _ payload =>
      match JSON_parse payload with Some _ => true | None => false end
  | _ => false
  end.

Definition unmounts (e : UseWebSocket.Event) : bool :=
  match e with
  | UseWebSocket.Unmount => true
  | _ => false
  end.

(** [dispatch e a] is [None] when [e] cannot happen in [a]. *)
Definition dispatch (e : Event) (a : App) : option App :=
  match e with
  | Hook e =>
      match UseWebSocket.step url WebSocket_accepts JSON_parse e (hook a) with
      | Some h =>
          Some {| hook := h;
                  stored := if stores e then S (stored a) else stored a;
                  rendered := rendered a;
                  mounted := if unmounts e then false else mounted a;
                  view := view a |}
      | None => None
      end
  | Render => render a
  end.

Fixpoint run (es : list Event) (a : App) : option App :=
  match es with
  | [] => Some a
  | e :: es =>
      match dispatch e a with
      | Some a' => run es a'
      | None => None
      end
  end.

End App.

End Dashboard.

(** ** Sample data

    Concrete readings, payloads and host behaviour on which the
    properties below are evaluated. *)

Module Samples.
Import JsNumber Types.

(** The reading with the given heart rate and temperature that the
    examples use; the other fields play no part in the evaluation. *)
Definition sample (b t : number) : ECGReading :=
  {| id := None; ecg := 0; bpm := b; rr := 800; hrv := 40;
     temperature := t; timestamp := "2024-01-01T00:00:00.000Z";
     patientCode := None |}.

Definition normal_alert : HealthAlert :=
  {| type := normal;
     message := "All vital signs within normal range";
     severity := low |}.

(** The feed of the monitor view, a host that accepts every address, and
    a parser that rejects every payload. *)
Definition feed : string := "wss://iot-584n.onrender.com".
Definition accepts_all (u : string) : bool := true.
Definition parses_nothing (payload : string) : option Json := None.

(** Payloads: one that stands for the text of a normal reading, four
    texts that are JSON and no reading, and one that is no JSON. *)
Definition good_payload : string := "<reading: 72 bpm, 36.5 C>".
Definition null_payload : string := "null".
Definition zero_payload : string := "0".
Definition array_payload : string := "[]".
Definition object_payload : string := "{}".
Definition bad_payload : string := "<html>502 Bad Gateway</html>".

(** [JSON.parse] on these payloads; it throws on every other text. *)
Definition parse_sample (payload : string) : option Json :=
  if decide (payload = good_payload) then Some (JsonReading (sample 72 36.5))
  else if decide (payload = null_payload) then Some JsonNull
  else if decide (payload = zero_payload) then Some (JsonNumber 0)
  else if decide (payload = array_payload) then Some (JsonArray [])
  else if decide (payload = object_payload) then Some (JsonObject [])
  else None.

Definition render_number (n : number) : string := "n".
Definition render_time (ts : string) : string := ts.

(** The monitor after the feed opened, delivered the good reading, and
    the component was committed. *)
Definition after_good_reading : option Dashboard.App :=
  Dashboard.run render_number render_time feed accepts_all parse_sample
    [Dashboard.Hook (UseWebSocket.SocketOpen 0);
     Dashboard.Hook (UseWebSocket.SocketMessage 0 good_payload);
     Dashboard.Render]
    (Dashboard.start feed accepts_all).

End Samples.

(** ** Runs of the hook

    Measures and event sequences over which the hook's behaviour along
    whole runs is stated. *)

Module UseWebSocketRuns.
Import Types UseWebSocket.

(** How many sockets can still raise an event, and how many timeouts can
    still fire. *)
Definition live_count (s : State) : nat :=
  length (filter (fun st => st <> CLOSED) (sockets s)).

Definition pending_count (s : State) : nat :=
  length (filter (fun t => is_pending t = true) (timeouts s)).

(** One round of the automatic retry on the [i]-th connection: it closes,
    3 seconds pass, and the timeout its close set fires. *)
Definition retry (i : nat) : list Event :=
  [SocketClose i; Elapse 3000; TimeoutFires i].

Fixpoint retries (n : nat) : list Event :=
  match n with
  | 0 => []
  | S n => retries n ++ retry n
  end.

(** The state [n] rounds of retry lead to, on a host that accepts the
    address and with no message received. *)
Definition after_retries (n : nat) : State :=
  {| data := JsonNull; connectionStatus := connecting; error := None;
     ws := Some n;
     reconnectTimeoutRef := match n with 0 => None | S m => Some m end;
     sockets := replicate n CLOSED ++ [CONNECTING];
     timeouts := replicate n Fired;
     clock := 3000 * N.of_nat n |}.

(** Messages delivered one after the other on socket [k]. *)
Definition messages (k : nat) (payloads : list string) : list Event :=
  SocketMessage k <$> payloads.

Section Parse.

Variable JSON_parse : string -> option Json.

(** The value an event leaves in [data]: a message that parses stores
    what it parsed to, every other event keeps what was there. *)
Definition data_after (d : Json) (e : Event) : Json :=
  match e with
  | SocketMessage _ payload =>
      match JSON_parse payload with
      | Some reading => reading
      | None => d
      end
  | _ => d
  end.

(** The last reading of a run: the value of its last message that
    parses. *)
Definition last_reading (es : list Event) (d : Json) : Json :=
  foldl data_after d es.

Definition parses (payload : string) : bool :=
  match JSON_parse payload with Some _ => true | None => false end.

End Parse.

End UseWebSocketRuns.

(** ** How the monitor view renders an alert *)

Module DashboardRuns.
Import JsNumber Types HealthAlerts.

(** The TypeScript severities are the strings themselves. *)
Definition severity_string (s : Severity) : string :=
  match s with
  | low => "low"
  | medium => "medium"
  | high => "high"
  end.

(** The classes the view gives an alert: [getAlertColor(alert.severity)]. *)
Definition alert_class (a : HealthAlert) : string :=
  getAlertColor (severity_string (severity a)).

End DashboardRuns.

(** ** [types/index.ts]: patients *)

Module Patients.
Import JsNumber.

Inductive Gender := male | female | other.

(** [interface Patient] *)
Record Patient := {
  id : string;
  name : string;
  age : number;
  gender : Gender;
  patientCode : string;
  createdAt : string;
}.

End Patients.

(** ** [components/ECGHistory.tsx]

    The helpers of the history view and the effect that derives the rows
    shown from the readings fetched, the search term, the patient
    selected and the sort order.  Strings are compared and searched by
    code unit. *)

Module ECGHistory.
Import JsNumber Types HealthAlerts.

(** [arr.join(sep)] on an array of strings. *)
Definition join (sep : string) (arr : list string) : string :=
  String.concat sep arr.

(** [s.includes(sub)]: [sub] occurs in [s]. *)
Fixpoint includes (s sub : string) : bool :=
  String.prefix sub s ||
  match s with
  | EmptyString => false
  | String _ s' => includes s' sub
  end.

(** A string in a condition: true unless it is empty. *)
Definition truthy (s : string) : bool :=
  match s with
  | EmptyString => false
  | String _ _ => true
  end.

Inductive SortOrder := asc | desc.

Definition getHealthStatus (reading : ECGReading) : string :=
  let alerts : list string := [] in
  let alerts := if gt (bpm reading) 100 then push alerts "Tachycardia"
                else alerts in
  let alerts := if lt (bpm reading) 60 then push alerts "Bradycardia"
                else alerts in
  let alerts := if gt (temperature reading) 37.5 then push alerts "Fever"
                else alerts in
  if decide (0 < length alerts) then join ", " alerts else "Normal".

Definition getStatusColor (reading : ECGReading) : string :=
  if gt (bpm reading) 100 || lt (bpm reading) 60
     || gt (temperature reading) 37.5
  then "text-red-600 bg-red-50 dark:text-red-200 dark:bg-red-900"
  else "text-green-600 bg-green-50 dark:text-green-200 dark:bg-green-900".

(** [patients.find(p => p.patientCode === patientCode)], then the name. *)
Definition getPatientName (patients : list Patients.Patient)
  (patientCode : string) : string :=
  match List.find (fun p => bool_decide (Patients.patientCode p = patientCode))
          patients with
  | Some patient => Patients.name patient
  | None => "Unknown"
  end.

(** The name the evaluator's alert kinds go by in the history view. *)
Definition status_label (k : AlertType) : string :=
  match k with
  | tachycardia => "Tachycardia"
  | bradycardia => "Bradycardia"
  | fever => "Fever"
  | normal => "Normal"
  end.

Section View.

(** [String.prototype.toLowerCase] *)
Variable toLowerCase : string -> string.
(** [new Date(ts).getTime()] *)
Variable getTime : string -> number.
(** [[...arr].sort(compare)] *)
Variable Array_sort :
  (ECGReading -> ECGReading -> number) -> list ECGReading -> list ECGReading.

(** [reading.patientCode === selectedPatient] *)
Definition matchesPatient (selectedPatient : string) (reading : ECGReading)
  : bool :=
  bool_decide (Types.patientCode reading = Some selectedPatient).

(** [reading.patientCode?.toLowerCase().includes(searchTerm.toLowerCase())
    || reading.timestamp.includes(searchTerm)] *)
Definition matchesSearch (searchTerm : string) (reading : ECGReading)
  : bool :=
  match Types.patientCode reading with
  | Some code => includes (toLowerCase code) (toLowerCase searchTerm)
  | None => false
  end
  || includes (timestamp reading) searchTerm.

Definition compareByTime (sortOrder : SortOrder) (a b : ECGReading)
  : number :=
  let dateA := getTime (timestamp a) in
  let dateB := getTime (timestamp b) in
  match sortOrder with
  | desc => (dateB - dateA)%float
  | asc => (dateA - dateB)%float
  end.

(** The value the effect stores in [filteredReadings]. *)
Definition filteredReadings (readings : list ECGReading)
  (searchTerm selectedPatient : string) (sortOrder : SortOrder)
  : list ECGReading :=
  (* Filter readings based on search term and selected patient *)
  let filtered := readings in
  let filtered :=
    if truthy selectedPatient
    then filter (fun reading => matchesPatient selectedPatient reading = true)
           readings
    else filtered in
  let filtered :=
    if truthy searchTerm
    then filter (fun reading => matchesSearch searchTerm reading = true)
           filtered
    else filtered in
  (* Sort readings *)
  let filtered := Array_sort (compareByTime sortOrder) filtered in
  filtered.

End View.

End ECGHistory.

(** ** [utils/geminiApi.ts] *)

Module GeminiApi.
Import JsNumber Types.

(** What a rejected promise carries: an [Error] with its message, or any
    other value. *)
Inductive Thrown := AnError (message : string) | NotAnError.

(** How an awaited call ends. *)
Inductive Settled := Resolved (text : string) | Rejected (reason : Thrown).

Section Api.

Variable ToString : number -> string.
(** The generative model behind [getGenerativeModel], [generateContent]
    and [response.text()]: the text for a prompt, or [None] when one of
    them throws or rejects. *)
Variable model : string -> option string.

(** [reading.patientCode || 'Unknown'] *)
Definition patientCodeOrUnknown (reading : ECGReading) : string :=
  match patientCode reading with
  | Some (String c code) => String c code
  | Some EmptyString | None => "Unknown"
  end.

Definition prompt (reading : ECGReading) : string :=
  "Given the following health sensor data:
- BPM (Heart Rate): "
    +:+ ToString (bpm reading)
    +:+ "
- RR Interval: "
    +:+ ToString (rr reading)
    +:+ "ms
- HRV (Heart Rate Variability): "
    +:+ ToString (hrv reading)
    +:+ "
- Temperature: "
    +:+ ToString (temperature reading)
    +:+ "°C
- Timestamp: "
    +:+ timestamp reading
    +:+ "
- Patient Code: "
    +:+ patientCodeOrUnknown reading
    +:+ "

Analyze this medical data and predict possible health issues (cardiac or general) based on these readings. 
Provide a short, professional medical assessment in plain English that a healthcare provider would understand.
Focus on any abnormalities or patterns that might indicate health concerns.
Keep the response concise but informative (2-3 sentences maximum).".

Definition generateHealthPrediction (reading : ECGReading) : Settled :=
  match model (prompt reading) with
  | Some text => Resolved text
  | None =>
      Rejected (AnError
        "Failed to generate health prediction. Please check your API configuration.")
  end.

End Api.

End GeminiApi.

(** ** [components/GeminiPredictor.tsx]

    [handleAnalyze] awaits the prediction, so it is two steps: what it
    does before the call is made, and what it does once the call has
    settled.  Other analyses may start or settle in between. *)

Module GeminiPredictor.
Import JsNumber Types GeminiApi.

(** [interface GeminiPrediction] *)
Record GeminiPrediction := {
  id : string;
  prediction : string;
  timestamp : string;
  isLoading : bool;
  error : option string;
}.

(** The three state cells of the component. *)
Record State := {
  predictions : list GeminiPrediction;
  loading : bool;
  failure : option string;
}.

Definition initial : State :=
  {| predictions := []; loading := false; failure := None |}.

(** The message of the error [generateHealthPrediction] throws. *)
Definition api_failure : string :=
  "Failed to generate health prediction. Please check your API configuration.".

(** [arr.slice(start, end)] for integers: both ends count from the end
    when negative and are clamped to [0, length]. *)
Definition slice {A} (start finish : Z) (arr : list A) : list A :=
  let len := Z.of_nat (length arr) in
  let clamp := fun i => if (i <? 0)%Z then Z.max (len + i) 0
                        else Z.min i len in
  let k := clamp start in
  let final := clamp finish in
  take (Z.to_nat (Z.max (final - k) 0)) (drop (Z.to_nat k) arr).

(** [{ ...p, prediction, isLoading: false }] *)
Definition withPrediction (text : string) (p : GeminiPrediction)
  : GeminiPrediction :=
  {| id := id p; prediction := text; timestamp := timestamp p;
     isLoading := false; error := error p |}.

(** [{ ...p, error: errorMessage, isLoading: false }] *)
Definition withError (errorMessage : string) (p : GeminiPrediction)
  : GeminiPrediction :=
  {| id := id p; prediction := prediction p; timestamp := timestamp p;
     isLoading := false; error := Some errorMessage |}.

Section Component.

Variable ToString : number -> string.

Definition predictionId (now : number) : string :=
  "prediction-" +:+ ToString now.

(** [handleAnalyze] up to the call of [generateHealthPrediction], with
    the values read from the clock: [Date.now()] and
    [new Date().toISOString()]. *)
Definition handleAnalyze_begin (now : number) (isoNow : string) (s : State)
  : State :=
  let newPrediction :=
    {| id := predictionId now; prediction := "";
       timestamp := isoNow; isLoading := true; error := None |} in
  {| predictions := slice 0 5 (newPrediction :: predictions s);
     (* Keep last 5 predictions *)
     loading := true;
     failure := None |}.

(** [handleAnalyze] from the moment the call has settled. *)
Definition handleAnalyze_settle (predictionId : string) (result : Settled)
  (s : State) : State :=
  match result with
  | Resolved text =>
      {| predictions :=
           (fun p => if decide (id p = predictionId)
                     then withPrediction text p else p) <$> predictions s;
         loading := false;
         failure := failure s |}
  | Rejected err =>
      let errorMessage :=
        match err with
        | AnError message => message
        | NotAnError => "Analysis failed"
        end in
      {| predictions :=
           (fun p => if decide (id p = predictionId)
                     then withError errorMessage p else p) <$> predictions s;
         loading := false;
         failure := Some errorMessage |}
  end.

(** What happens to the component: an analysis starts at some time, or
    the analysis started at some time settles, with what the model did
    for its reading. *)
Inductive Event :=
| Begin (now : number) (isoNow : string)
| Settle (started : number) (reading : ECGReading)
    (model : string -> option string).

Definition step (e : Event) (s : State) : State :=
  match e with
  | Begin now isoNow => handleAnalyze_begin now isoNow s
  | Settle started reading model =>
      handleAnalyze_settle (predictionId started)
        (generateHealthPrediction ToString model reading) s
  end.

Definition run (es : list Event) (s : State) : State :=
  foldl (fun s e => step e s) s es.

End Component.

End GeminiPredictor.

(** ** [App.tsx]

    The state cells of the application shell and what its handlers do to
    them.  The only timeout set is the one of [handlePatientRegistered],
    whose callback is [setActiveTab('monitor')]; it is never cleared. *)

Module App.
Import Patients.

Inductive TabType := registration | monitor | history | predictor.

Record State := {
  activeTab : TabType;
  registeredPatients : list Patient;
  selectedPatient : option Patient;
  isDarkMode : bool;
  (* host *)
  timeouts : list UseWebSocket.Timeout;
  clock : N;
}.

Definition initial : State :=
  {| activeTab := registration; registeredPatients := [];
     selectedPatient := None; isDarkMode := false;
     timeouts := []; clock := 0 |}.

Definition handlePatientRegistered (patient : Patient) (s : State) : State :=
  {| activeTab := activeTab s;
     registeredPatients := registeredPatients s ++ [patient];
     selectedPatient := Some patient;
     isDarkMode := isDarkMode s;
     (* Auto-switch to monitor tab after registration *)
     timeouts := timeouts s ++ [UseWebSocket.Pending (clock s + 2000)];
     clock := clock s |}.

(** [onChange] of the patient select, with [e.target.value]. *)
Definition selectPatient (value : string) (s : State) : State :=
  let patient :=
    List.find (fun p => bool_decide (id p = value)) (registeredPatients s) in
  {| activeTab := activeTab s; registeredPatients := registeredPatients s;
     selectedPatient := patient; isDarkMode := isDarkMode s;
     timeouts := timeouts s; clock := clock s |}.

Definition setActiveTab (tab : TabType) (s : State) : State :=
  {| activeTab := tab; registeredPatients := registeredPatients s;
     selectedPatient := selectedPatient s; isDarkMode := isDarkMode s;
     timeouts := timeouts s; clock := clock s |}.

(** [onToggle] of the dark mode button. *)
Definition toggleDarkMode (s : State) : State :=
  {| activeTab := activeTab s; registeredPatients := registeredPatients s;
     selectedPatient := selectedPatient s;
     isDarkMode := negb (isDarkMode s);
     timeouts := timeouts s; clock := clock s |}.

Inductive Event :=
| PatientRegistered (patient : Patient)
| PatientSelected (value : string)
| TabClicked (tab : TabType)
| DarkModeToggled
| TimeoutFires (t : nat)
| Elapse (ms : N).

(** [step e s] is [None] when [e] cannot happen in [s]. *)
Definition step (e : Event) (s : State) : option State :=
  match e with
  | PatientRegistered patient => Some (handlePatientRegistered patient s)
  | PatientSelected value => Some (selectPatient value s)
  | TabClicked tab => Some (setActiveTab tab s)
  | DarkModeToggled => Some (toggleDarkMode s)
  | TimeoutFires t =>
      match timeouts s !! t with
      | Some (UseWebSocket.Pending due) =>
          if decide (due <= clock s)%N
          then Some (setActiveTab monitor
                       {| activeTab := activeTab s;
                          registeredPatients := registeredPatients s;
                          selectedPatient := selectedPatient s;
                          isDarkMode := isDarkMode s;
                          timeouts := <[t := UseWebSocket.Fired]> (timeouts s);
                          clock := clock s |})
          else None
      | _ => None
      end
  | Elapse ms =>
      Some {| activeTab := activeTab s;
              registeredPatients := registeredPatients s;
              selectedPatient := selectedPatient s;
              isDarkMode := isDarkMode s;
              timeouts := timeouts s; clock := (clock s + ms)%N |}
  end.

Fixpoint run (es : list Event) (s : State) : option State :=
  match es with
  | [] => Some s
  | e :: es => match step e s with
               | Some s' => run es s'
               | None => None
               end
  end.

(** The patient an event registers. *)
Definition registered_by (e : Event) : option Patient :=
  match e with
  | PatientRegistered patient => Some patient
  | _ => None
  end.

End App.

(** ** [components/ECGHistory.tsx]: fetching the history

    [fetchECGHistory] awaits the request, so it is two steps: what it
    does before the request is made, and what it does once the request
    has ended.  The rows shown are derived from [readings] by the effect
    above. *)

Module ECGHistoryFetch.
Import Types GeminiApi.

(** How the request ends: [fetch] rejects, the response is not ok,
    [response.json()] rejects, or the readings arrive. *)
Inductive FetchResult :=
| FetchRejected (reason : Thrown)
| NotOk
| JsonRejected (reason : Thrown)
| Ok (data : list ECGReading).

Record State := {
  readings : list ECGReading;
  isLoading : bool;
  error : option string;
}.

Definition initial : State :=
  {| readings := []; isLoading := true; error := None |}.

Definition fetchECGHistory_begin (s : State) : State :=
  {| readings := readings s; isLoading := true; error := error s |}.

Definition fetchECGHistory_settle (result : FetchResult) (s : State)
  : State :=
  let attempt : State + Thrown :=
    match result with
    | FetchRejected reason => inr reason
    | NotOk => inr (AnError "Failed to fetch ECG history")
    | JsonRejected reason => inr reason
    | Ok data => inl {| readings := data; isLoading := isLoading s;
                        error := None |}
    end in
  let s :=
    match attempt with
    | inl s' => s'
    | inr err =>
        {| readings := readings s; isLoading := isLoading s;
           error := Some match err with
                         | AnError message => message
                         | NotAnError => "Failed to load history"
                         end |}
    end in
  {| readings := readings s; isLoading := false; error := error s |}.

Inductive Event := Begin | Settle (result : FetchResult).

Definition step (e : Event) (s : State) : State :=
  match e with
  | Begin => fetchECGHistory_begin s
  | Settle result => fetchECGHistory_settle result s
  end.

Definition run (es : list Event) (s : State) : State :=
  foldl (fun s e => step e s) s es.

(** The readings an event leaves: those it fetched, or the ones before. *)
Definition readings_after (rs : list ECGReading) (e : Event)
  : list ECGReading :=
  match e with
  | Settle (Ok data) => data
  | _ => rs
  end.

(** The message shown for a request that failed. *)
Definition failure_message (result : FetchResult) : option string :=
  match result with
  | FetchRejected (AnError message) | JsonRejected (AnError message) =>
      Some message
  | FetchRejected NotAnError | JsonRejected NotAnError =>
      Some "Failed to load history"
  | NotOk => Some "Failed to fetch ECG history"
  | Ok _ => None
  end.

End ECGHistoryFetch.

(** ** Sample runs *)

Module RunSamples.
Import Types UseWebSocket Samples.

(** A host whose [WebSocket] constructor throws on every address. *)
Definition refuses_all (u : string) : bool := false.

(** The hook on the feed once its first socket has opened. *)
Definition opened : State :=
  {| data := JsonNull; connectionStatus := connected; error := None;
     ws := Some 0; reconnectTimeoutRef := None;
     sockets := [OPEN]; timeouts := []; clock := 0 |}.

(** A session: the socket opens, a reading arrives, then a payload that
    does not parse, the connection drops and is retried after 3 seconds. *)
Definition session : list Event :=
  [SocketOpen 0; SocketMessage 0 good_payload; SocketMessage 0 bad_payload;
   SocketClose 0; Elapse 3000; TimeoutFires 0; SocketOpen 1].

End RunSamples.

(** ** Sample history *)

Module HistorySamples.
Import JsNumber Types Samples.

Definition ana : Patients.Patient :=
  {| Patients.id := "p1"; Patients.name := "Ana Ruiz"; Patients.age := 54;
     Patients.gender := Patients.female; Patients.patientCode := "PT-001";
     Patients.createdAt := "2024-01-01T00:00:00.000Z" |}.

Definition ben : Patients.Patient :=
  {| Patients.id := "p2"; Patients.name := "Ben Okoye"; Patients.age := 61;
     Patients.gender := Patients.male; Patients.patientCode := "PT-002";
     Patients.createdAt := "2024-01-02T00:00:00.000Z" |}.

(** A reading of the given patient, heart rate and time. *)
Definition reading_of_patient (code : option string) (b : number)
  (ts : string) : ECGReading :=
  {| id := None; ecg := 0; bpm := b; rr := 800; hrv := 40;
     temperature := 36.5; timestamp := ts; patientCode := code |}.

Definition fetched : list ECGReading :=
  [reading_of_patient (Some "PT-001") 72 "2024-03-01T10:00:00.000Z";
   reading_of_patient (Some "PT-002") 130 "2024-03-01T10:00:01.000Z";
   reading_of_patient None 55 "2024-03-01T10:00:02.000Z";
   reading_of_patient (Some "PT-001") 90 "2024-03-02T08:30:00.000Z"].

(** Stand-ins for the host: no case folding, the length of a timestamp
    for its time, and a merge sort on the sign of the comparator. *)
Definition keep_case (s : string) : string := s.
Definition time_by_length (ts : string) : number :=
  PrimFloat.of_uint63 (Uint63.of_Z (Z.of_nat (String.length ts))).
Definition sort_by_sign (compare : ECGReading -> ECGReading -> number)
  (arr : list ECGReading) : list ECGReading :=
  merge_sort (fun a b => Is_true (le (compare a b) 0)) arr.

End HistorySamples.

(** ** Sample analyses *)

Module PredictorSamples.
Import JsNumber Types.

(** A rendering of times that tells the first second from the rest. *)
Definition stamp (n : number) : string :=
  if lt n 1000 then "early" else "late".

(** A model that is down. *)
Definition model_down (prompt : string) : option string := None.

(** Five analyses started one second apart, from the second second on. *)
Definition burst : list (number * string) :=
  [(2000, "2024-03-01T10:00:02.000Z"); (3000, "2024-03-01T10:00:03.000Z");
   (4000, "2024-03-01T10:00:04.000Z"); (5000, "2024-03-01T10:00:05.000Z");
   (6000, "2024-03-01T10:00:06.000Z")]%float.

End PredictorSamples.

(** * Properties *)

(** ** Order facts on numbers *)

Module JsNumberFacts.
Import JsNumber.

(** *** The specification floats

    [SFcompare] is the comparison the primitive operators are specified
    by; it is antisymmetric, total away from NaN, and its strict part is
    transitive. *)

Ltac fold_pos_compare :=
  repeat match goal with
    | |- context [Pos.compare_cont Eq ?a ?b] =>
        change (Pos.compare_cont Eq a b) with (Pos.compare a b)
    | H : context [Pos.compare_cont Eq ?a ?b] |- _ =>
        change (Pos.compare_cont Eq a b) with (Pos.compare a b) in H
    end.

Lemma SFcompare_antisym (a b : spec_float) (c : comparison) :
  SFcompare a b = Some c -> SFcompare b a = Some (CompOpp c).
Proof.
  destruct a as [sa|sa| |sa ma ea], b as [sb|sb| |sb mb eb]; simpl;
    try discriminate;
    try (destruct sa); try (destruct sb);
    try (intros [= <-]; reflexivity);
    intros [= <-]; f_equal; fold_pos_compare;
    rewrite (Z.compare_antisym ea eb), (Pos.compare_antisym ma mb);
    destruct (ea ?= eb)%Z, (ma ?= mb)%positive; reflexivity.
Qed.

Lemma SFcompare_None (a b : spec_float) :
  SFcompare a b = None -> a = S754_nan \/ b = S754_nan.
Proof.
  destruct a as [sa|sa| |sa ma ea], b as [sb|sb| |sb mb eb]; simpl;
    try discriminate; auto.
Qed.

Lemma SFcompare_refl (a : spec_float) :
  a <> S754_nan -> SFcompare a a = Some Eq.
Proof.
  destruct a as [sa|sa| |sa ma ea]; simpl; try congruence;
    destruct sa; try reflexivity; intros _; f_equal; fold_pos_compare;
    rewrite Z.compare_refl, Pos.compare_refl; reflexivity.
Qed.

Lemma lex_lt_trans (e1 e2 e3 : Z) (m1 m2 m3 : positive) :
  match (e1 ?= e2)%Z with Eq => (m1 ?= m2)%positive | c => c end = Lt ->
  match (e2 ?= e3)%Z with Eq => (m2 ?= m3)%positive | c => c end = Lt ->
  match (e1 ?= e3)%Z with Eq => (m1 ?= m3)%positive | c => c end = Lt.
Proof.
  destruct (Z.compare_spec e1 e2), (Z.compare_spec e2 e3),
    (Z.compare_spec e1 e3); try discriminate; try lia; auto.
  rewrite !Pos.compare_lt_iff. lia.
Qed.

Lemma lex_gt_trans (e1 e2 e3 : Z) (m1 m2 m3 : positive) :
  match (e1 ?= e2)%Z with
  | Eq => CompOpp (m1 ?= m2)%positive | Lt => Gt | Gt => Lt end = Lt ->
  match (e2 ?= e3)%Z with
  | Eq => CompOpp (m2 ?= m3)%positive | Lt => Gt | Gt => Lt end = Lt ->
  match (e1 ?= e3)%Z with
  | Eq => CompOpp (m1 ?= m3)%positive | Lt => Gt | Gt => Lt end = Lt.
Proof.
  destruct (Z.compare_spec e1 e2), (Z.compare_spec e2 e3),
    (Z.compare_spec e1 e3); try discriminate; try lia; auto.
  destruct (Pos.compare_spec m1 m2), (Pos.compare_spec m2 m3),
    (Pos.compare_spec m1 m3); simpl; try discriminate; try lia; auto.
Qed.

Lemma SFcompare_lt_trans (a b c : spec_float) :
  SFcompare a b = Some Lt -> SFcompare b c = Some Lt ->
  SFcompare a c = Some Lt.
Proof.
  destruct a as [sa|sa| |sa ma ea], b as [sb|sb| |sb mb eb],
    c as [sc|sc| |sc mc ec]; simpl; try discriminate;
    try (destruct sa); try (destruct sb); try (destruct sc);
    try discriminate; try reflexivity;
    intros [= H1] [= H2]; f_equal; fold_pos_compare.
  - exact (lex_gt_trans _ _ _ _ _ _ H1 H2).
  - exact (lex_lt_trans _ _ _ _ _ _ H1 H2).
Qed.

(** *** The same facts on numbers *)

Lemma lt_compare (x y : number) :
  lt x y = true <-> SFcompare (Prim2SF x) (Prim2SF y) = Some Lt.
Proof.
  unfold lt. rewrite FloatAxioms.ltb_spec. unfold SFltb.
  destruct (SFcompare _ _) as [[]|]; split; congruence.
Qed.

Lemma le_compare (x y : number) :
  le x y = true <->
  SFcompare (Prim2SF x) (Prim2SF y) = Some Lt \/
  SFcompare (Prim2SF x) (Prim2SF y) = Some Eq.
Proof.
  unfold le. rewrite FloatAxioms.leb_spec. unfold SFleb.
  destruct (SFcompare _ _) as [[]|]; split; intros; try tauto;
    try congruence; destruct H; congruence.
Qed.

Lemma is_nan_spec (x : number) :
  is_nan x = true <-> Prim2SF x = S754_nan.
Proof.
  unfold is_nan. rewrite FloatAxioms.eqb_spec. unfold SFeqb. split.
  - intros H. destruct (Prim2SF x) as [s|s| |s m e] eqn:E; try reflexivity;
      rewrite SFcompare_refl in H by discriminate; discriminate.
  - intros ->. reflexivity.
Qed.

Lemma lt_trans (x y z : number) :
  lt x y = true -> lt y z = true -> lt x z = true.
Proof. rewrite !lt_compare. apply SFcompare_lt_trans. Qed.

Lemma lt_not_nan (x y : number) :
  lt x y = true -> is_nan x = false /\ is_nan y = false.
Proof.
  rewrite lt_compare. intros H.
  split; apply not_true_is_false; rewrite is_nan_spec; intros E;
    rewrite E in H; simpl in H; try discriminate.
  destruct (Prim2SF x); discriminate.
Qed.

(** [x <= y] excludes [x > y]. *)
Lemma le_not_gt (x y : number) : le x y = true -> gt x y = false.
Proof.
  rewrite le_compare. intros H. apply not_true_is_false.
  unfold gt. fold (lt y x). rewrite lt_compare. intros G.
  apply SFcompare_antisym in G. simpl in G.
  destruct H as [H|H]; congruence.
Qed.

(** Away from NaN the order is total: not [x > y] gives [x <= y]. *)
Lemma not_gt_le (x y : number) :
  is_nan x = false -> is_nan y = false -> gt x y = false -> le x y = true.
Proof.
  intros Nx Ny G. apply le_compare.
  destruct (SFcompare (Prim2SF x) (Prim2SF y)) as [[]|] eqn:E; auto.
  - apply SFcompare_antisym in E. simpl in E.
    apply lt_compare in E. unfold gt in G. unfold lt in E. congruence.
  - apply SFcompare_None in E.
    destruct E as [E|E]; apply is_nan_spec in E; congruence.
Qed.

End JsNumberFacts.

(** ** The alert evaluator *)

Module HealthAlertsSpec.
Import JsNumber JsNumberFacts Types HealthAlerts Samples.

(** The two heart-rate conditions exclude each other. *)
Lemma tachycardia_excludes_bradycardia (b : number) :
  gt b 100 = true -> lt b 60 = true -> False.
Proof.
  intros H1 H2. unfold gt in H1. fold (lt 100 b) in H1.
  pose proof (lt_trans _ _ _ H1 H2) as H. vm_compute in H. discriminate.
Qed.

Lemma gt_120_gt_100 (b : number) : gt b 120 = true -> gt b 100 = true.
Proof.
  unfold gt. fold (lt 120 b) (lt 100 b). apply lt_trans. reflexivity.
Qed.

Lemma lt_40_lt_60 (b : number) : lt b 40 = true -> lt b 60 = true.
Proof. intros H. apply (lt_trans _ _ _ H). reflexivity. Qed.

Lemma gt_39_gt_375 (t : number) : gt t 39 = true -> gt t 37.5 = true.
Proof.
  unfold gt. fold (lt 39 t) (lt 37.5 t). apply lt_trans. reflexivity.
Qed.

Section Evaluator.

Variable ToString : number -> string.

Abbreviation evaluate := (analyzeHealthData ToString).

(** The evaluator's output, by which of the three conditions hold. *)
Lemma evaluate_cases (r : ECGReading) :
  evaluate r =
    (if gt (bpm r) 100 then
       [{| type := tachycardia;
           message := "High heart rate detected: " +:+ ToString (bpm r)
                        +:+ " BPM (Normal: 60-100)";
           severity := if gt (bpm r) 120 then high else medium |}]
     else []) ++
    (if lt (bpm r) 60 then
       [{| type := bradycardia;
           message := "Low heart rate detected: " +:+ ToString (bpm r)
                        +:+ " BPM (Normal: 60-100)";
           severity := if lt (bpm r) 40 then high else medium |}]
     else []) ++
    (if gt (temperature r) 37.5 then
       [{| type := fever;
           message := "Elevated temperature: " +:+ ToString (temperature r)
                        +:+ "°C (Normal: <37.5°C)";
           severity := if gt (temperature r) 39 then high else medium |}]
     else []) ++
    (if gt (bpm r) 100 || lt (bpm r) 60 || gt (temperature r) 37.5 then []
     else [{| type := normal;
              message := "All vital signs within normal range";
              severity := low |}]).
Proof.
  unfold analyzeHealthData, push.
  destruct (gt (bpm r) 100), (lt (bpm r) 60), (gt (temperature r) 37.5);
    reflexivity.
Qed.

Ltac by_cases r :=
  rewrite (evaluate_cases r);
  let Ht := fresh "Htachy" in
  let Hb := fresh "Hbrady" in
  let Hf := fresh "Hfever" in
  destruct (gt (bpm r) 100) eqn:Ht, (lt (bpm r) 60) eqn:Hb,
    (gt (temperature r) 37.5) eqn:Hf;
  try (exfalso; exact (tachycardia_excludes_bradycardia _ Ht Hb));
  cbn [app orb].

(** Membership in an explicit list, one element at a time. *)
Ltac elems :=
  repeat match goal with
    | H : _ ∈ [] |- _ => apply elem_of_nil in H; destruct H
    | H : _ ∈ _ :: _ |- _ => apply elem_of_cons in H; destruct H as [->|H]
    end.

Ltac has_alert :=
  first
    [ solve [eexists; split; [apply list_elem_of_here|simpl; done]]
    | solve [eexists; split;
             [apply list_elem_of_further, list_elem_of_here|simpl; done]]
    | solve [eexists; split;
             [do 2 apply list_elem_of_further; apply list_elem_of_here
             |simpl; done]] ].

(** The severity computed for each kind, in the spec's interval terms. *)
Lemma tachycardia_severity (b : number) :
  gt b 100 = true ->
  ((if gt b 120 then high else medium) = high <-> gt b 120 = true) /\
  ((if gt b 120 then high else medium) = medium <-> le b 120 = true).
Proof.
  intros H. destruct (gt b 120) eqn:G.
  - split; split; try reflexivity; try discriminate.
    intros L. apply le_not_gt in L. congruence.
  - split; split; try reflexivity; try discriminate.
    intros _. apply not_gt_le; [|reflexivity|exact G].
    unfold gt in H. fold (lt 100 b) in H. exact (proj2 (lt_not_nan _ _ H)).
Qed.

Lemma bradycardia_severity (b : number) :
  lt b 60 = true ->
  ((if lt b 40 then high else medium) = high <-> lt b 40 = true) /\
  ((if lt b 40 then high else medium) = medium <-> le 40 b = true).
Proof.
  intros H. destruct (lt b 40) eqn:G.
  - split; split; try reflexivity; try discriminate.
    intros L. apply le_not_gt in L. unfold gt in L. fold (lt b 40) in L.
    congruence.
  - split; split; try reflexivity; try discriminate.
    intros _. apply not_gt_le; [reflexivity| |exact G].
    exact (proj1 (lt_not_nan _ _ H)).
Qed.

Lemma fever_severity (t : number) :
  gt t 37.5 = true ->
  ((if gt t 39 then high else medium) = high <-> gt t 39 = true) /\
  ((if gt t 39 then high else medium) = medium <-> le t 39 = true).
Proof.
  intros H. destruct (gt t 39) eqn:G.
  - split; split; try reflexivity; try discriminate.
    intros L. apply le_not_gt in L. congruence.
  - split; split; try reflexivity; try discriminate.
    intros _. apply not_gt_le; [|reflexivity|exact G].
    unfold gt in H. fold (lt 37.5 t) in H. exact (proj2 (lt_not_nan _ _ H)).
Qed.

(** C1: the output has a tachycardia alert exactly when bpm > 100; that
    alert is high exactly when bpm > 120 and medium exactly when
    100 < bpm <= 120; and the output holds no second tachycardia alert. *)
Theorem C1_tachycardia (r : ECGReading) :
  ((exists a, a ∈ evaluate r /\ type a = tachycardia) <->
   gt (bpm r) 100 = true) /\
  (forall a, a ∈ evaluate r -> type a = tachycardia ->
     (severity a = high <-> gt (bpm r) 120 = true) /\
     (severity a = medium <->
      gt (bpm r) 100 = true /\ le (bpm r) 120 = true)) /\
  length (of_type tachycardia (evaluate r)) <= 1.
Proof.
  split; [|split].
  - by_cases r; (split; [intros (a & Ha & Ta); elems; done | intros ?]);
      try discriminate; has_alert.
  - intros a Ha Ta. revert Ha.
    by_cases r; intros Ha; elems; try discriminate; simpl;
      destruct (tachycardia_severity _ Htachy) as [Hh Hm];
      (split; [exact Hh|]); rewrite Hm; tauto.
  - by_cases r; cbv [of_type]; simpl; lia.
Qed.

(** C2: the output has a bradycardia alert exactly when bpm < 60; that
    alert is high exactly when bpm < 40 and medium exactly when
    40 <= bpm < 60, so medium at bpm 40. *)
Theorem C2_bradycardia (r : ECGReading) :
  ((exists a, a ∈ evaluate r /\ type a = bradycardia) <->
   lt (bpm r) 60 = true) /\
  (forall a, a ∈ evaluate r -> type a = bradycardia ->
     (severity a = high <-> lt (bpm r) 40 = true) /\
     (severity a = medium <->
      le 40 (bpm r) = true /\ lt (bpm r) 60 = true)) /\
  (bpm r = 40%float ->
   exists a, a ∈ evaluate r /\ type a = bradycardia /\ severity a = medium).
Proof.
  split; [|split].
  - by_cases r; (split; [intros (a & Ha & Ta); elems; done | intros ?]);
      try discriminate; has_alert.
  - intros a Ha Ta. revert Ha.
    by_cases r; intros Ha; elems; try discriminate; simpl;
      destruct (bradycardia_severity _ Hbrady) as [Hh Hm];
      (split; [exact Hh|]); rewrite Hm; tauto.
  - intros E. rewrite (evaluate_cases r), E.
    has_alert.
Qed.

(** C3: the output has a fever alert exactly when temperature > 37.5;
    that alert is high exactly when temperature > 39.0 and medium exactly
    when 37.5 < temperature <= 39.0, so medium at temperature 39.0. *)
Theorem C3_fever (r : ECGReading) :
  ((exists a, a ∈ evaluate r /\ type a = fever) <->
   gt (temperature r) 37.5 = true) /\
  (forall a, a ∈ evaluate r -> type a = fever ->
     (severity a = high <-> gt (temperature r) 39 = true) /\
     (severity a = medium <->
      gt (temperature r) 37.5 = true /\ le (temperature r) 39 = true)) /\
  (temperature r = 39%float ->
   exists a, a ∈ evaluate r /\ type a = fever /\ severity a = medium).
Proof.
  split; [|split].
  - by_cases r; (split; [intros (a & Ha & Ta); elems; done | intros ?]);
      try discriminate; has_alert.
  - intros a Ha Ta. revert Ha.
    by_cases r; intros Ha; elems; try discriminate; simpl;
      destruct (fever_severity _ Hfever) as [Hh Hm];
      (split; [exact Hh|]); rewrite Hm; tauto.
  - intros E. rewrite (evaluate_cases r), E. change (gt 39 37.5) with true.
    destruct (gt (bpm r) 100), (lt (bpm r) 60); cbn [app]; has_alert.
Qed.

(** C4: the output is never empty; a reading with bpm in [60,100] and
    temperature <= 37.5 yields the single alert normal/low; the normal
    alert is in the output exactly when none of the three threshold
    conditions holds, which is exactly when the output has no alert of
    another kind; and a normal alert is the whole output. *)
Theorem C4_normal (r : ECGReading) :
  evaluate r <> [] /\
  (le 60 (bpm r) = true -> le (bpm r) 100 = true ->
   le (temperature r) 37.5 = true ->
   evaluate r = [normal_alert]) /\
  ((exists a, a ∈ evaluate r /\ type a = normal) <->
   gt (bpm r) 100 = false /\ lt (bpm r) 60 = false /\
   gt (temperature r) 37.5 = false) /\
  ((exists a, a ∈ evaluate r /\ type a = normal) <->
   ~ (exists a, a ∈ evaluate r /\ type a <> normal)) /\
  (forall a, a ∈ evaluate r -> type a = normal ->
     evaluate r = [a] /\ severity a = low).
Proof.
  split; [|split; [|split; [|split]]].
  - by_cases r; discriminate.
  - intros H60 H100 H375.
    apply le_not_gt in H60, H100, H375. unfold gt in H60.
    fold (lt (bpm r) 60) in H60.
    rewrite (evaluate_cases r), H60, H100, H375. reflexivity.
  - by_cases r;
      (split; [intros (a & Ha & Ta); elems; done | intros (? & ? & ?)]);
      try discriminate; has_alert.
  - by_cases r; split.
    all: try (intros (a & Ha & Ta); elems; discriminate).
    all: try (intros H; exfalso; apply H; has_alert).
    + intros _ (a & Ha & Ta). elems. apply Ta. reflexivity.
    + intros _. has_alert.
  - intros a Ha Ta. revert Ha.
    by_cases r; intros Ha; elems; try discriminate. split; reflexivity.
Qed.

(** C5: a tachycardia or bradycardia alert stands before a fever alert in
    the output; and a reading with bpm 130 and temperature 38.0 yields
    exactly tachycardia/high followed by fever/medium. *)
Theorem C5_order (r : ECGReading) :
  (forall i j a b,
     evaluate r !! i = Some a -> evaluate r !! j = Some b ->
     type a = tachycardia \/ type a = bradycardia -> type b = fever ->
     i < j) /\
  (bpm r = 130%float -> temperature r = 38%float ->
   evaluate r =
     [{| type := tachycardia;
         message := "High heart rate detected: " +:+ ToString 130
                      +:+ " BPM (Normal: 60-100)";
         severity := high |};
      {| type := fever;
         message := "Elevated temperature: " +:+ ToString 38
                      +:+ "°C (Normal: <37.5°C)";
         severity := medium |}]).
Proof.
  split.
  - intros i j a b. by_cases r; intros Ha Hb Ta Tb;
      destruct i as [|[|[|i]]]; simpl in Ha; try discriminate;
      destruct j as [|[|[|j]]]; simpl in Hb; try discriminate;
      injection Ha as <-; injection Hb as <-; simpl in Ta, Tb;
      try discriminate; try (destruct Ta; discriminate); lia.
  - intros Eb Et. rewrite (evaluate_cases r), Eb, Et. reflexivity.
Qed.

(** C10: the output has at most one alert of each kind, never both a
    tachycardia and a bradycardia alert, and at most three alerts. *)
Theorem C10_at_most_one_per_kind (r : ECGReading) :
  (forall k, length (of_type k (evaluate r)) <= 1) /\
  ~ ((exists a, a ∈ evaluate r /\ type a = tachycardia) /\
     (exists a, a ∈ evaluate r /\ type a = bradycardia)) /\
  length (evaluate r) <= 3.
Proof.
  split; [|split].
  - intros k. by_cases r; destruct k; cbv [of_type]; simpl; lia.
  - intros [(a & Ha & Ta) (b & Hb & Tb)]. revert Ha Hb.
    by_cases r; intros Ha Hb; elems; discriminate.
  - by_cases r; simpl; lia.
Qed.

(** The bound that the exclusion gives: one or two alerts. *)
Lemma evaluate_length (r : ECGReading) :
  1 <= length (evaluate r) <= 2.
Proof. by_cases r; simpl; lia. Qed.

End Evaluator.

(** The spec's three examples, for any rendering of numbers. *)
Example evaluate_130_38 (ToString : number -> string) :
  map (fun a => (type a, severity a))
      (analyzeHealthData ToString (sample 130 38)) =
  [(tachycardia, high); (fever, medium)].
Proof. reflexivity. Qed.

Example evaluate_70_36_5 (ToString : number -> string) :
  map (fun a => (type a, severity a))
      (analyzeHealthData ToString (sample 70 36.5)) =
  [(normal, low)].
Proof. reflexivity. Qed.

Example evaluate_35_40 (ToString : number -> string) :
  map (fun a => (type a, severity a))
      (analyzeHealthData ToString (sample 35 40)) =
  [(bradycardia, high); (fever, high)].
Proof. reflexivity. Qed.

(** A reading whose numbers are NaN triggers no threshold. *)
Example evaluate_nan (ToString : number -> string) :
  analyzeHealthData ToString (sample nan nan) = [normal_alert].
Proof. reflexivity. Qed.

End HealthAlertsSpec.

(** ** The chart history *)

Module ECGMonitorSpec.
Import JsNumber Types HealthAlerts ECGMonitor.

(** [slice(-n)] keeps the last [n] elements. *)
Lemma slice_negative {A} (n : nat) (arr : list A) :
  0 < n -> slice (- Z.of_nat n) arr = drop (length arr - n) arr.
Proof.
  intros Hn. unfold slice.
  destruct (Z.ltb_spec (- Z.of_nat n) 0) as [_|H]; [|lia].
  f_equal. lia.
Qed.

Lemma appendReading_drop (prev : list HistoryEntry) (e : HistoryEntry) :
  appendReading prev e = drop (length prev + 1 - 50) (prev ++ [e]).
Proof.
  unfold appendReading. change (-50)%Z with (- Z.of_nat 50)%Z.
  rewrite slice_negative by lia. rewrite length_app. reflexivity.
Qed.

Lemma appendReading_short (prev : list HistoryEntry) (e : HistoryEntry) :
  length prev < 50 -> appendReading prev e = prev ++ [e].
Proof.
  intros H. rewrite appendReading_drop.
  replace (length prev + 1 - 50) with 0 by lia. reflexivity.
Qed.

Lemma appendReading_full (prev : list HistoryEntry) (e : HistoryEntry) :
  50 <= length prev ->
  appendReading prev e = drop (length prev - 49) prev ++ [e].
Proof.
  intros H. rewrite appendReading_drop.
  replace (length prev + 1 - 50) with (length prev - 49) by lia.
  rewrite drop_app_le by lia. reflexivity.
Qed.

Lemma appendReading_length (prev : list HistoryEntry) (e : HistoryEntry) :
  length (appendReading prev e) = Nat.min 50 (length prev + 1).
Proof.
  rewrite appendReading_drop, length_drop, length_app.
  change (length [e]) with 1. lia.
Qed.

Section Effect.

Variable ToString : number -> string.
Variable toLocaleTimeString : string -> string.

Abbreviation entry :=
  (fun r => {| reading := r; time := toLocaleTimeString (timestamp r) |}).
Abbreviation history := (historyAfter ToString toLocaleTimeString).

Lemma historyAfter_snoc (rs : list ECGReading) (r : ECGReading) :
  history (rs ++ [r]) = appendReading (history rs) (entry r).
Proof. unfold historyAfter. rewrite foldl_snoc. reflexivity. Qed.

(** Over a whole stream the history is the last 50 readings received, in
    the order received. *)
Lemma historyAfter_last_50 (rs : list ECGReading) :
  history rs = drop (length rs - 50) (entry <$> rs).
Proof.
  induction rs as [|r rs IH] using rev_ind; [reflexivity|].
  rewrite historyAfter_snoc, IH, appendReading_drop, fmap_app, !length_app,
    length_drop, length_fmap.
  change (length [r]) with 1. change (entry <$> [r]) with [entry r].
  destruct (decide (length rs < 50)) as [H|H].
  - replace (length rs - 50) with 0 by lia. rewrite drop_0.
    do 2 f_equal. lia.
  - rewrite !drop_app_le by (rewrite ?length_drop, length_fmap; lia).
    rewrite drop_drop. do 2 f_equal. lia.
Qed.

Lemma historyAfter_bounded (rs : list ECGReading) :
  length (history rs) <= 50.
Proof.
  rewrite historyAfter_last_50, length_drop, length_fmap. lia.
Qed.

(** C9: the history never exceeds 50 entries, after one append to any
    history and after any stream of readings; appending to a history of
    50 evicts exactly its oldest entry; and the entries kept are the most
    recent ones, in arrival order: a suffix of the previous history
    followed by the new reading, and over a stream the last 50 received. *)
Theorem C9_rolling_history
  (prev : list HistoryEntry) (e : HistoryEntry) (rs : list ECGReading) :
  length (appendReading prev e) <= 50 /\
  length (history rs) <= 50 /\
  (length prev = 50 ->
   exists oldest rest,
     prev = oldest :: rest /\ appendReading prev e = rest ++ [e]) /\
  (exists evicted,
     prev ++ [e] = evicted ++ appendReading prev e /\
     length evicted = length prev + 1 - 50) /\
  history rs = drop (length rs - 50) (entry <$> rs).
Proof.
  split; [|split; [|split; [|split]]].
  - rewrite appendReading_length. lia.
  - apply historyAfter_bounded.
  - intros H. destruct prev as [|oldest rest]; [discriminate|].
    exists oldest, rest. split; [reflexivity|].
    rewrite appendReading_full by lia. rewrite H. reflexivity.
  - exists (take (length prev + 1 - 50) (prev ++ [e])). split.
    + rewrite appendReading_drop. symmetry. apply take_drop.
    + rewrite length_take, length_app. change (length [e]) with 1. lia.
  - apply historyAfter_last_50.
Qed.

End Effect.

End ECGMonitorSpec.

(** ** The connection hook *)

Module UseWebSocketSpec.
Import Types UseWebSocket Samples.

Lemma all_closed_lookup (s : State) (k : nat) (st : ReadyState) :
  all_closed s -> sockets s !! k = Some st -> st = CLOSED.
Proof. intros H L. exact (proj1 (Forall_lookup _ _) H k st L). Qed.

Lemma none_pending_lookup (s : State) (t : nat) (due : N) :
  none_pending s -> timeouts s !! t = Some (Pending due) -> False.
Proof.
  intros H L. pose proof (proj1 (Forall_lookup _ _) H t _ L). discriminate.
Qed.

Lemma none_pending_filter (s : State) :
  none_pending s -> filter (fun t => is_pending t = true) (timeouts s) = [].
Proof.
  unfold none_pending. induction 1 as [|t ts Ht _ IH]; [reflexivity|].
  rewrite filter_cons, IH. destruct (decide _); congruence.
Qed.

Section Hook.

Variable url : string.
Variable WebSocket_accepts : string -> bool.
Variable JSON_parse : string -> option Json.

Abbreviation connect := (UseWebSocket.connect url WebSocket_accepts).
Abbreviation reconnect := (UseWebSocket.reconnect url WebSocket_accepts).
Abbreviation step := (UseWebSocket.step url WebSocket_accepts JSON_parse).
Abbreviation run := (UseWebSocket.run url WebSocket_accepts JSON_parse).
Abbreviation mount := (UseWebSocket.mount url WebSocket_accepts).

(** *** What [connect] touches *)

Lemma connect_timeouts (s : State) : timeouts (connect s) = timeouts s.
Proof. unfold UseWebSocket.connect. destruct (WebSocket_accepts url); reflexivity. Qed.

Lemma connect_reconnectTimeoutRef (s : State) :
  reconnectTimeoutRef (connect s) = reconnectTimeoutRef s.
Proof. unfold UseWebSocket.connect. destruct (WebSocket_accepts url); reflexivity. Qed.

Lemma connect_sockets (s : State) :
  sockets (connect s) =
  sockets s ++ (if WebSocket_accepts url then [CONNECTING] else []).
Proof.
  unfold UseWebSocket.connect. destruct (WebSocket_accepts url); simpl;
    [reflexivity|]. rewrite app_nil_r. reflexivity.
Qed.

Lemma connect_ws (s : State) :
  ws (connect s) =
  if WebSocket_accepts url then Some (length (sockets s)) else ws s.
Proof. unfold UseWebSocket.connect. destruct (WebSocket_accepts url); reflexivity. Qed.

Lemma connect_connectionStatus (s : State) :
  connectionStatus (connect s) =
  if WebSocket_accepts url then connecting else disconnected.
Proof. unfold UseWebSocket.connect. destruct (WebSocket_accepts url); reflexivity. Qed.

(** *** A state with nothing in flight stays so *)

Lemma dead_step (e : Event) (s s' : State) :
  dead s -> host_event e = true -> step e s = Some s' ->
  is_elapse e /\ sockets s' = sockets s /\ timeouts s' = timeouts s /\
  dead s'.
Proof.
  intros [Hc Hp] He Hs.
  destruct e as [k|k payload|k|k|t|ms| |]; simpl in He, Hs;
    try discriminate.
  1-4: destruct (sockets s !! k) as [st|] eqn:L; [|discriminate];
       rewrite (all_closed_lookup s k st Hc L) in Hs; discriminate.
  - destruct (timeouts s !! t) as [[due| |]|] eqn:L; try discriminate.
    destruct (none_pending_lookup s t due Hp L).
  - injection Hs as <-. repeat split; eauto. exists ms. reflexivity.
Qed.

Lemma dead_run (es : list Event) (s s' : State) :
  dead s -> forallb host_event es = true -> run es s = Some s' ->
  Forall is_elapse es /\ sockets s' = sockets s /\ timeouts s' = timeouts s.
Proof.
  revert s. induction es as [|e es IH]; intros s Hd He Hr; simpl in *.
  - injection Hr as <-. auto.
  - apply andb_prop in He as [He Hes].
    destruct (step e s) as [s1|] eqn:Hs; [|discriminate].
    destruct (dead_step e s s1 Hd He Hs) as (E & S1 & T1 & Hd1).
    destruct (IH s1 Hd1 Hes Hr) as (F & S2 & T2).
    repeat split; [constructor; assumption|congruence|congruence].
Qed.

(** *** Close, the scheduled reconnect, and teardown *)

Lemma onclose_fields (s : State) :
  let s1 := onclose s in
  connectionStatus s1 = disconnected /\
  timeouts s1 = timeouts s ++ [Pending (clock s + 3000)%N] /\
  reconnectTimeoutRef s1 = Some (length (timeouts s)) /\
  sockets s1 = sockets s /\ ws s1 = ws s /\ clock s1 = clock s /\
  data s1 = data s /\ error s1 = error s.
Proof. repeat split. Qed.

Lemma cleanup_after_close (s1 : State) (ts : list Timeout) (due : N) :
  all_closed s1 ->
  Forall (fun t => is_pending t = false) ts ->
  timeouts s1 = ts ++ [Pending due] ->
  reconnectTimeoutRef s1 = Some (length ts) ->
  timeouts (cleanup s1) = ts ++ [Cleared] /\
  sockets (cleanup s1) = sockets s1 /\
  dead (cleanup s1).
Proof.
  intros Hc Hts Ht Hr.
  assert (Hclear : timeouts (clearTimeout (length ts) s1) = ts ++ [Cleared]
                   /\ sockets (clearTimeout (length ts) s1) = sockets s1
                   /\ ws (clearTimeout (length ts) s1) = ws s1).
  { unfold clearTimeout. rewrite Ht, list_lookup_middle by reflexivity.
    simpl. repeat split.
    replace (length ts) with (length ts + 0) at 1 by lia.
    rewrite insert_app_r. reflexivity. }
  destruct Hclear as (T & S & W).
  assert (Hclose : forall s', sockets s' = sockets s1 ->
            match ws s' with Some k => WebSocket_close k s' | None => s' end
            = s').
  { intros s' E. destruct (ws s') as [k|]; [|reflexivity].
    unfold WebSocket_close.
    destruct (sockets s' !! k) as [st|] eqn:L; [|reflexivity].
    rewrite E in L. rewrite (all_closed_lookup s1 k st Hc L). reflexivity. }
  unfold cleanup. rewrite Hr, (Hclose _ S).
  repeat split; try assumption.
  - unfold all_closed. rewrite S. exact Hc.
  - unfold none_pending. rewrite T. apply Forall_app. split; [assumption|].
    repeat constructor.
Qed.

(** A close event on the manager's connection while nothing else is in
    flight sets the state to disconnected and schedules exactly one
    reconnect, due 3000 ms later: the timeout cannot fire earlier, and
    when it fires it runs [connect] once and cannot fire again.  If the
    manager is torn down first, at any time, the timeout is cancelled,
    and from then on the host can deliver no event but the passing of
    time: no reconnect attempt occurs.  The two conditions hold in every
    run without a manual reconnect, and can fail after one. *)
Lemma close_schedules_one_reconnect
  (s : State) (k : nat) (st : ReadyState) :
  sockets s !! k = Some st -> st <> CLOSED ->
  only_live k s -> none_pending s ->
  exists s1,
    step (SocketClose k) s = Some s1 /\
    connectionStatus s1 = disconnected /\
    timeouts s1 = timeouts s ++ [Pending (clock s + 3000)%N] /\
    reconnectTimeoutRef s1 = Some (length (timeouts s)) /\
    filter (fun t => is_pending t = true) (timeouts s1)
      = [Pending (clock s + 3000)%N] /\
    (forall ms, (ms < 3000)%N ->
       run [Elapse ms; TimeoutFires (length (timeouts s))] s1 = None) /\
    (forall ms, (3000 <= ms)%N ->
       exists s2 s3,
         run [Elapse ms] s1 = Some s2 /\
         run [TimeoutFires (length (timeouts s))] s2 = Some s3 /\
         s3 = connect (set_timeouts (timeouts s ++ [Fired]) s2) /\
         none_pending s3 /\
         forall t, step (TimeoutFires t) s3 = None) /\
    (forall ms, exists s2,
       run [Elapse ms; Unmount] s1 = Some s2 /\
       timeouts s2 = timeouts s ++ [Cleared] /\
       dead s2 /\
       forall es s3,
         forallb host_event es = true -> run es s2 = Some s3 ->
         Forall is_elapse es /\ sockets s3 = sockets s2 /\
         timeouts s3 = timeouts s2).
Proof.
  intros L Hlive Honly Hnone.
  set (s1 := onclose (set_sockets (<[k := CLOSED]> (sockets s)) s)).
  assert (Hstep : step (SocketClose k) s = Some s1).
  { simpl. rewrite L. destruct st; try reflexivity. congruence. }
  assert (Hmid : (timeouts s ++ [Pending (clock s + 3000)%N])
                 !! length (timeouts s) = Some (Pending (clock s + 3000)%N)).
  { apply list_lookup_middle. reflexivity. }
  assert (Hins : forall x, <[length (timeouts s) := x]>
                   (timeouts s ++ [Pending (clock s + 3000)%N])
                 = timeouts s ++ [x]).
  { intros x. replace (length (timeouts s)) with (length (timeouts s) + 0)
      at 1 by lia. rewrite insert_app_r. reflexivity. }
  exists s1. split; [exact Hstep|]. split; [reflexivity|].
  split; [reflexivity|]. split; [reflexivity|].
  split; [|split; [|split]].
  - simpl. rewrite filter_app, (none_pending_filter s Hnone). reflexivity.
  - intros ms Hms. simpl. rewrite Hmid.
    destruct (decide (clock s + 3000 <= clock s + ms)%N); [lia|reflexivity].
  - intros ms Hms. eexists _, _. split; [reflexivity|].
    assert (Hn3 : none_pending
              (connect (set_timeouts (timeouts s ++ [Fired])
                          (set_clock (clock s1 + ms)%N s1)))).
    { unfold none_pending. rewrite connect_timeouts. simpl.
      apply Forall_app. split; [exact Hnone|repeat constructor]. }
    split; [|split; [reflexivity|split; [exact Hn3|]]].
    + simpl. rewrite Hmid.
      destruct (decide (clock s + 3000 <= clock s + ms)%N); [|lia].
      rewrite Hins. reflexivity.
    + intros t. simpl.
      destruct (timeouts _ !! t) as [[due| |]|] eqn:Lt; try reflexivity.
      destruct (none_pending_lookup _ t due Hn3 Lt).
  - intros ms. eexists. split; [reflexivity|].
    destruct (cleanup_after_close (set_clock (clock s1 + ms)%N s1)
                (timeouts s) (clock s + 3000)%N) as (T & S & D);
      try assumption; try reflexivity.
    split; [exact T|]. split; [exact D|].
    intros es s3 He Hr. exact (dead_run es _ s3 D He Hr).
Qed.

(** *** What the two host calls of the cleanup touch *)

Lemma clearTimeout_frame (t : nat) (s : State) :
  sockets (clearTimeout t s) = sockets s /\
  ws (clearTimeout t s) = ws s /\
  reconnectTimeoutRef (clearTimeout t s) = reconnectTimeoutRef s.
Proof.
  unfold clearTimeout. destruct (timeouts s !! t) as [[]|]; repeat split.
Qed.

Lemma clearTimeout_pending (t j : nat) (due : N) (s : State) :
  timeouts (clearTimeout t s) !! j = Some (Pending due) ->
  timeouts s !! j = Some (Pending due) /\ j <> t.
Proof.
  unfold clearTimeout.
  destruct (timeouts s !! t) as [[d| |]|] eqn:L; simpl; intros Lj.
  - apply list_lookup_insert_Some in Lj as [(_ & ? & _)|[? Lj]];
      [discriminate|auto].
  - split; [assumption|]. intros ->. congruence.
  - split; [assumption|]. intros ->. congruence.
  - split; [assumption|]. intros ->. congruence.
Qed.

Lemma WebSocket_close_frame (k : nat) (s : State) :
  timeouts (WebSocket_close k s) = timeouts s /\
  ws (WebSocket_close k s) = ws s /\
  reconnectTimeoutRef (WebSocket_close k s) = reconnectTimeoutRef s.
Proof.
  unfold WebSocket_close. destruct (sockets s !! k) as [[]|]; repeat split.
Qed.

Lemma WebSocket_close_live (k j : nat) (st : ReadyState) (s : State) :
  sockets (WebSocket_close k s) !! j = Some st -> st <> CLOSED ->
  exists st0, sockets s !! j = Some st0 /\ st0 <> CLOSED.
Proof.
  unfold WebSocket_close.
  destruct (sockets s !! k) as [stk|] eqn:L; [|eauto].
  destruct stk; simpl; eauto; intros Lj Hj;
    (apply list_lookup_insert_Some in Lj as [(<- & _ & _)|[_ Lj]];
     [eexists; split; [exact L|discriminate]|eauto]).
Qed.

(** *** The single-connection invariant

    It holds after the first run of the effect and is kept by every event
    of the host and by the cleanup; only the manual reconnect can break
    it.  At a socket that can still close it gives the two conditions of
    [close_schedules_one_reconnect]. *)

Lemma single_connection_ext (s s' : State) :
  sockets s' = sockets s -> timeouts s' = timeouts s ->
  ws s' = ws s -> reconnectTimeoutRef s' = reconnectTimeoutRef s ->
  single_connection s -> single_connection s'.
Proof.
  unfold single_connection, none_pending, all_closed.
  intros -> -> -> ->. auto.
Qed.

Lemma single_connection_mount : single_connection mount.
Proof.
  unfold UseWebSocket.mount, UseWebSocket.connect.
  destruct (WebSocket_accepts url); split; simpl.
  - intros [|j] st L _; [|discriminate]. split; [reflexivity|constructor].
  - intros t due L. discriminate.
  - intros j st L. discriminate.
  - intros t due L. discriminate.
Qed.

Lemma single_connection_live (s : State) (k : nat) (st : ReadyState) :
  single_connection s -> sockets s !! k = Some st -> st <> CLOSED ->
  only_live k s /\ none_pending s /\ ws s = Some k.
Proof.
  intros [I1 I2] L Hlive. destruct (I1 k st L Hlive) as [W P].
  split; [|auto]. unfold only_live. apply Forall_lookup. intros j x Lj.
  apply list_lookup_insert_Some in Lj as [(_ & <- & _)|[Hne Lj]];
    [reflexivity|].
  destruct (decide (x = CLOSED)) as [|Hx]; [assumption|].
  destruct (I1 j x Lj Hx) as [W' _]. congruence.
Qed.

Lemma single_connection_step (e : Event) (s s' : State) :
  single_connection s -> e <> ManualReconnect -> step e s = Some s' ->
  single_connection s'.
Proof.
  intros I He Hs. pose proof I as [I1 I2].
  destruct e as [k|k payload|k|k|t|ms| |]; simpl in Hs; try congruence.
  - (* open *)
    destruct (sockets s !! k) as [[]|] eqn:L; try discriminate.
    injection Hs as <-.
    destruct (I1 k CONNECTING L) as [W P]; [discriminate|].
    split; simpl.
    + intros j st Lj Hj. split; [|exact P].
      apply list_lookup_insert_Some in Lj as [(<- & _ & _)|[_ Lj]];
        [exact W|]. exact (proj1 (I1 j st Lj Hj)).
    + intros t due Lt. destruct (none_pending_lookup s t due P Lt).
  - (* message *)
    destruct (sockets s !! k) as [[]|] eqn:L; try discriminate.
    injection Hs as <-. unfold onmessage.
    destruct (JSON_parse payload);
      apply (single_connection_ext s); auto.
  - (* error *)
    destruct (sockets s !! k) as [[]|] eqn:L; try discriminate;
      injection Hs as <-; apply (single_connection_ext s); auto.
  - (* close *)
    assert (exists st, sockets s !! k = Some st /\ st <> CLOSED
                       /\ s' = onclose
                            (set_sockets (<[k := CLOSED]> (sockets s)) s))
      as (st & L & Hlive & ->).
    { destruct (sockets s !! k) as [[]|] eqn:L; try discriminate;
        injection Hs as <-; eexists; repeat split; discriminate. }
    destruct (single_connection_live s k st I L Hlive) as (O & P & W).
    split; simpl.
    + intros j x Lj Hx.
      destruct (Hx (proj1 (Forall_lookup _ _) O j x Lj)).
    + intros t due Lt. split; [|exact O].
      apply lookup_app_Some in Lt as [Lt|[Hge Lt]].
      * destruct (none_pending_lookup s t due P Lt).
      * destruct (t - length (timeouts s)) as [|n] eqn:E;
          [|discriminate]. f_equal. lia.
  - (* the timeout fires *)
    destruct (timeouts s !! t) as [[due| |]|] eqn:L; try discriminate.
    destruct (decide (due <= clock s)%N); [|discriminate].
    injection Hs as <-. destruct (I2 t due L) as [R C].
    assert (P : Forall (fun x => is_pending x = false)
                  (<[t := Fired]> (timeouts s))).
    { apply Forall_lookup. intros j x Lj.
      apply list_lookup_insert_Some in Lj as [(_ & <- & _)|[Hne Lj]];
        [reflexivity|].
      destruct x as [d| |]; try reflexivity.
      destruct (I2 j d Lj) as [R' _]. congruence. }
    split.
    + intros j st Lj Hj. rewrite connect_sockets in Lj.
      rewrite connect_ws. unfold none_pending. rewrite connect_timeouts.
      simpl in *. destruct (WebSocket_accepts url).
      * apply lookup_app_Some in Lj as [Lj|[Hge Lj]].
        -- destruct (Hj (all_closed_lookup s j st C Lj)).
        -- destruct (j - length (sockets s)) as [|n] eqn:E;
             [|discriminate]. split; [f_equal; lia|exact P].
      * rewrite app_nil_r in Lj.
        destruct (Hj (all_closed_lookup s j st C Lj)).
    + intros j d Lj. rewrite connect_timeouts in Lj. simpl in Lj.
      pose proof (proj1 (Forall_lookup _ _) P j _ Lj). discriminate.
  - (* time passes *)
    injection Hs as <-. apply (single_connection_ext s); auto.
  - (* cleanup *)
    injection Hs as <-. unfold cleanup.
    set (s1 := match reconnectTimeoutRef s with
               | Some t => clearTimeout t s
               | None => s
               end).
    assert (S1 : sockets s1 = sockets s /\ ws s1 = ws s).
    { unfold s1. destruct (reconnectTimeoutRef s) as [t|]; [|auto].
      destruct (clearTimeout_frame t s) as (? & ? & _). auto. }
    destruct S1 as [S1 W1].
    assert (T1 : none_pending s1).
    { apply Forall_lookup. intros j x Lj.
      destruct x as [d| |]; try reflexivity. exfalso.
      unfold s1 in Lj. destruct (reconnectTimeoutRef s) as [t|] eqn:R.
      - apply clearTimeout_pending in Lj as [Lj Hne].
        destruct (I2 j d Lj) as [R' _]. congruence.
      - destruct (I2 j d Lj) as [R' _]. congruence. }
    assert (I1' : forall j st, sockets s1 !! j = Some st -> st <> CLOSED ->
                    ws s1 = Some j).
    { intros j st. rewrite S1, W1. intros Lj Hj.
      exact (proj1 (I1 j st Lj Hj)). }
    clearbody s1. destruct (ws s1) as [k|] eqn:W.
    + destruct (WebSocket_close_frame k s1) as (T & W' & _).
      split.
      * intros j st Lj Hj.
        destruct (WebSocket_close_live k j st s1 Lj Hj) as (st0 & L0 & H0).
        unfold none_pending. rewrite W', T, W.
        split; [exact (I1' j st0 L0 H0)|exact T1].
      * intros t due Lt. rewrite T in Lt.
        destruct (none_pending_lookup s1 t due T1 Lt).
    + split.
      * intros j st Lj Hj. pose proof (I1' j st Lj Hj). discriminate.
      * intros t due Lt. destruct (none_pending_lookup s1 t due T1 Lt).
Qed.

(** Every state reached from the first run of the effect without a manual
    reconnect has a single connection in flight. *)
Lemma single_connection_run (es : list Event) (s s' : State) :
  single_connection s -> Forall (fun e => e <> ManualReconnect) es ->
  run es s = Some s' -> single_connection s'.
Proof.
  revert s. induction es as [|e es IH]; intros s I He Hr; simpl in Hr.
  - injection Hr as <-. exact I.
  - destruct (step e s) as [s1|] eqn:Hs; [|discriminate].
    apply Forall_cons in He as [He Hes].
    exact (IH s1 (single_connection_step e s s1 I He Hs) Hes Hr).
Qed.

(** So in every run without a manual reconnect, a socket that can still
    close is the only one, and no timeout is pending when it does. *)
Lemma automatic_run_single_live
  (es : list Event) (s : State) (k : nat) (st : ReadyState) :
  Forall (fun e => e <> ManualReconnect) es -> run es mount = Some s ->
  sockets s !! k = Some st -> st <> CLOSED ->
  only_live k s /\ none_pending s.
Proof.
  intros He Hr L Hlive.
  pose proof (single_connection_run es mount s single_connection_mount He Hr)
    as I.
  destruct (single_connection_live s k st I L Hlive) as (O & P & _). auto.
Qed.

(** *** The manual reconnect *)

(** [reconnect] is [connect]: it sets the state to connecting and opens a
    socket, and it neither cancels a timeout nor closes a socket. *)
Lemma reconnect_frame (s : State) :
  timeouts (reconnect s) = timeouts s /\
  reconnectTimeoutRef (reconnect s) = reconnectTimeoutRef s /\
  (forall k st, sockets s !! k = Some st ->
     sockets (reconnect s) !! k = Some st) /\
  connectionStatus (reconnect s) =
    (if WebSocket_accepts url then connecting else disconnected).
Proof.
  unfold UseWebSocket.reconnect.
  split; [apply connect_timeouts|].
  split; [apply connect_reconnectTimeoutRef|].
  split; [|apply connect_connectionStatus].
  intros k st L. rewrite connect_sockets. apply lookup_app_l_Some, L.
Qed.

(** The effect run again does cancel and close before it connects. *)
Lemma rerun_effect_cancels (s : State) (t : nat) (due : N) :
  reconnectTimeoutRef s = Some t -> timeouts s !! t = Some (Pending due) ->
  timeouts (rerun_effect url WebSocket_accepts s) !! t = Some Cleared.
Proof.
  intros R L. unfold rerun_effect. rewrite connect_timeouts.
  unfold cleanup. rewrite R.
  assert (T : timeouts (clearTimeout t s) !! t = Some Cleared).
  { unfold clearTimeout. rewrite L. simpl.
    apply list_lookup_insert_eq. exact (lookup_lt_Some _ _ _ L). }
  destruct (ws (clearTimeout t s)) as [k|]; [|exact T].
  destruct (WebSocket_close_frame k (clearTimeout t s)) as (-> & _). exact T.
Qed.

End Hook.

(** C6, on the code: a manual reconnect while the reconnect scheduled by a
    close is pending goes to connecting and opens a socket, but leaves
    that timeout pending, so that 3 seconds later a second socket is
    opened next to the first; and a manual reconnect on an open
    connection leaves it open.  The effect run again, from the same two
    states, cancels the timeout and closes the connection first. *)
Theorem C6_manual_reconnect_keeps_timeout_and_socket :
  let run := UseWebSocket.run feed accepts_all parses_nothing in
  let start := UseWebSocket.mount feed accepts_all in
  exists s1 s2 s3 s4 s5,
    run [SocketClose 0] start = Some s1 /\
    timeouts s1 = [Pending 3000%N] /\
    run [ManualReconnect] s1 = Some s2 /\
    connectionStatus s2 = connecting /\
    sockets s2 = [CLOSED; CONNECTING] /\
    timeouts s2 = [Pending 3000%N] /\
    run [Elapse 3000%N; TimeoutFires 0] s2 = Some s3 /\
    sockets s3 = [CLOSED; CONNECTING; CONNECTING] /\
    timeouts (rerun_effect feed accepts_all s1) = [Cleared] /\
    run [SocketOpen 0] start = Some s4 /\
    sockets s4 = [OPEN] /\
    run [ManualReconnect] s4 = Some s5 /\
    sockets s5 = [OPEN; CONNECTING] /\
    sockets (rerun_effect feed accepts_all s4) = [CLOSING; CONNECTING].
Proof.
  cbv zeta. do 5 eexists.
  split; [vm_compute; reflexivity|]. split; [reflexivity|].
  split; [vm_compute; reflexivity|]. repeat (split; [reflexivity|]).
  reflexivity.
Qed.

(** The first connection of the feed, closed before it opened. *)
Lemma close_schedules_one_reconnect_at_mount :
  exists s1,
    UseWebSocket.step feed accepts_all parses_nothing (SocketClose 0)
      (UseWebSocket.mount feed accepts_all) = Some s1 /\
    connectionStatus s1 = disconnected /\
    timeouts s1 = [Pending 3000%N] /\
    exists s2,
      UseWebSocket.run feed accepts_all parses_nothing
        [Elapse 1000%N; Unmount] s1 = Some s2 /\
      timeouts s2 = [Cleared] /\ dead s2.
Proof.
  destruct (close_schedules_one_reconnect feed accepts_all parses_nothing
              (UseWebSocket.mount feed accepts_all) 0 CONNECTING)
    as (s1 & H1 & H2 & H3 & _ & _ & _ & _ & H4).
  - reflexivity.
  - discriminate.
  - repeat constructor.
  - constructor.
  - destruct (H4 1000%N) as (s2 & R & T & D & _).
    exists s1. split; [exact H1|]. split; [exact H2|]. split; [exact H3|].
    exists s2. split; [exact R|]. split; [exact T|exact D].
Qed.

(** C7, on the code: each close sets the state to disconnected and
    schedules a reconnect 3000 ms later, but without looking at the one
    scheduled before, and the ref holds the last timeout only.  After a
    close, a manual reconnect and the close of the connection it opened,
    two reconnects are pending; the teardown, within the delay of both,
    cancels the second only, and the first fires after the teardown and
    opens a connection.  Without the manual reconnect the teardown
    cancels the one reconnect and nothing is left in flight. *)
Theorem C7_reconnect_after_teardown :
  let run := UseWebSocket.run feed accepts_all parses_nothing in
  let start := UseWebSocket.mount feed accepts_all in
  exists s1 s2 s3 s4 s5,
    run [SocketClose 0] start = Some s1 /\
    connectionStatus s1 = disconnected /\
    timeouts s1 = [Pending 3000%N] /\
    reconnectTimeoutRef s1 = Some 0 /\
    run [ManualReconnect; Elapse 1000%N; SocketClose 1] s1 = Some s2 /\
    connectionStatus s2 = disconnected /\
    timeouts s2 = [Pending 3000%N; Pending 4000%N] /\
    reconnectTimeoutRef s2 = Some 1 /\
    run [Elapse 1000%N; Unmount] s2 = Some s3 /\
    clock s3 = 2000%N /\
    sockets s3 = [CLOSED; CLOSED] /\
    timeouts s3 = [Pending 3000%N; Cleared] /\
    run [Elapse 1000%N; TimeoutFires 0] s3 = Some s4 /\
    connectionStatus s4 = connecting /\
    ws s4 = Some 2 /\
    sockets s4 = [CLOSED; CLOSED; CONNECTING] /\
    run [Elapse 2000%N; Unmount] s1 = Some s5 /\
    sockets s5 = [CLOSED] /\
    timeouts s5 = [Cleared].
Proof.
  cbv zeta. do 5 eexists.
  repeat (split; [vm_compute; reflexivity|]). reflexivity.
Qed.

End UseWebSocketSpec.

(** ** Messages that do not decode *)

Module DashboardSpec.
Import JsNumber Types UseWebSocket Dashboard Samples.

Section App.

Variable ToString : number -> string.
Variable toLocaleTimeString : string -> string.
Variable url : string.
Variable WebSocket_accepts : string -> bool.
Variable JSON_parse : string -> option Json.

Abbreviation dispatch :=
  (Dashboard.dispatch ToString toLocaleTimeString url WebSocket_accepts
     JSON_parse).
Abbreviation render := (Dashboard.render ToString toLocaleTimeString).

(** What the next commit does depends on the hook through [data] and
    the clock only. *)
Lemma render_view (a a' : App) :
  data (hook a') = data (hook a) ->
  clock (hook a') = clock (hook a) ->
  stored a' = stored a ->
  rendered a' = rendered a ->
  mounted a' = mounted a ->
  view a' = view a ->
  view <$> render a' = view <$> render a.
Proof.
  intros D C S R M V. unfold Dashboard.render.
  rewrite D, C, S, R, M, V.
  destruct (mounted a); [|reflexivity].
  destruct (Object_is _ _); simpl; [exact (f_equal Some V)|reflexivity].
Qed.

(** C8: a message on an open socket is handled without failing, and the
    only decode failure the handler knows is [JSON.parse] throwing.  Then
    it sets the error to the invalid-data message and changes nothing
    else: [data], the connection state, the refs and the host tables
    stay, the cells of the component stay, and the next commit leaves
    them as it would have without the message.  A payload that parses is
    stored in [data] whatever it parsed to, and the error is left as it
    was. *)
Theorem C8_decode_failure (a : App) (k : nat) (payload : string) :
  sockets (hook a) !! k = Some OPEN ->
  match JSON_parse payload with
  | None =>
      exists a',
        dispatch (Hook (SocketMessage k payload)) a = Some a' /\
        hook a' = setError (Some "Invalid data format received") (hook a) /\
        error (hook a') = Some "Invalid data format received" /\
        data (hook a') = data (hook a) /\
        connectionStatus (hook a') = connectionStatus (hook a) /\
        ws (hook a') = ws (hook a) /\
        reconnectTimeoutRef (hook a') = reconnectTimeoutRef (hook a) /\
        sockets (hook a') = sockets (hook a) /\
        timeouts (hook a') = timeouts (hook a) /\
        stored a' = stored a /\
        rendered a' = rendered a /\
        mounted a' = mounted a /\
        view a' = view a /\
        view <$> render a' = view <$> render a
  | Some v =>
      exists a',
        dispatch (Hook (SocketMessage k payload)) a = Some a' /\
        hook a' = setData v (hook a) /\
        data (hook a') = v /\
        error (hook a') = error (hook a) /\
        connectionStatus (hook a') = connectionStatus (hook a) /\
        stored a' = S (stored a) /\
        rendered a' = rendered a /\
        mounted a' = mounted a /\
        view a' = view a
  end.
Proof.
  intros L. unfold Dashboard.dispatch, stores, unmounts. simpl.
  rewrite L. unfold onmessage.
  destruct (JSON_parse payload) as [v|]; eexists; (split; [reflexivity|]).
  - repeat (split; [reflexivity|]). reflexivity.
  - repeat (split; [reflexivity|]). apply render_view; reflexivity.
Qed.

End App.

(** After a good reading, the payload [null] is no reading, and the
    handler takes it: the reading is replaced by [null] and no error is
    set.  The same goes for [0], [[]] and [{}]. *)
Lemma C8_parsed_payload_replaces_reading :
  exists a a1 a2 a3 a4,
    after_good_reading = Some a /\
    data (hook a) = JsonReading (sample 72 36.5) /\
    error (hook a) = None /\
    Dashboard.dispatch render_number render_time feed accepts_all
      parse_sample (Hook (SocketMessage 0 null_payload)) a = Some a1 /\
    data (hook a1) = JsonNull /\ error (hook a1) = None /\
    Dashboard.dispatch render_number render_time feed accepts_all
      parse_sample (Hook (SocketMessage 0 zero_payload)) a = Some a2 /\
    data (hook a2) = JsonNumber 0 /\ error (hook a2) = None /\
    Dashboard.dispatch render_number render_time feed accepts_all
      parse_sample (Hook (SocketMessage 0 array_payload)) a = Some a3 /\
    data (hook a3) = JsonArray [] /\ error (hook a3) = None /\
    Dashboard.dispatch render_number render_time feed accepts_all
      parse_sample (Hook (SocketMessage 0 object_payload)) a = Some a4 /\
    data (hook a4) = JsonObject [] /\ error (hook a4) = None.
Proof.
  do 5 eexists.
  split; [vm_compute; reflexivity|].
  split; [reflexivity|]. split; [reflexivity|].
  split; [vm_compute; reflexivity|].
  split; [reflexivity|]. split; [reflexivity|].
  split; [vm_compute; reflexivity|].
  split; [reflexivity|]. split; [reflexivity|].
  split; [vm_compute; reflexivity|].
  split; [reflexivity|]. split; [reflexivity|].
  split; [vm_compute; reflexivity|].
  split; reflexivity.
Qed.

(** C8 after a good reading: the payload that is no JSON only sets the
    error. *)
Lemma C8_witness :
  exists a a',
    after_good_reading = Some a /\
    sockets (hook a) !! 0 = Some OPEN /\
    data (hook a) = JsonReading (sample 72 36.5) /\
    (exists m, view a = Typed m /\ ECGMonitor.alerts m = [normal_alert]) /\
    parse_sample bad_payload = None /\
    Dashboard.dispatch render_number render_time feed accepts_all
      parse_sample (Hook (SocketMessage 0 bad_payload)) a = Some a' /\
    error (hook a') = Some "Invalid data format received" /\
    data (hook a') = JsonReading (sample 72 36.5) /\
    connectionStatus (hook a') = connected /\
    view a' = view a /\
    view <$> Dashboard.render render_number render_time a' =
      view <$> Dashboard.render render_number render_time a.
Proof.
  pose proof (C8_decode_failure render_number render_time feed accepts_all
                parse_sample
                (default (start feed accepts_all) after_good_reading)
                0 bad_payload) as H.
  change (parse_sample bad_payload) with (@None Json) in H.
  destruct H as (a' & D & H & E & Dt & C & _ & _ & _ & _ & _ & _ & _ & V & R).
  - vm_compute. reflexivity.
  - exists (default (start feed accepts_all) after_good_reading), a'.
    split; [vm_compute; reflexivity|]. split; [vm_compute; reflexivity|].
    split; [vm_compute; reflexivity|].
    split; [eexists; split; vm_compute; reflexivity|].
    split; [reflexivity|]. split; [exact D|].
    split; [exact E|].
    split; [rewrite Dt; vm_compute; reflexivity|].
    split; [rewrite C; vm_compute; reflexivity|].
    split; [exact V|exact R].
Defined.

End DashboardSpec.

(** ** The hook along whole runs *)

Module UseWebSocketRunsSpec.
Import Types UseWebSocket UseWebSocketRuns UseWebSocketSpec Samples.

(** *** Counting with [filter] *)

Lemma filter_none {A} (P : A -> Prop) `{Pdec : !forall x, Decision (P x)}
  (l : list A) :
  (forall i x, l !! i = Some x -> ~ P x) -> filter P l = [].
Proof.
  induction l as [|a l IH]; intros H; [reflexivity|].
  rewrite filter_cons. destruct (decide (P a)) as [Pa|_].
  - destruct (H 0 a eq_refl Pa).
  - apply IH. intros i x L. exact (H (S i) x L).
Qed.

Lemma filter_at_most_one {A} (P : A -> Prop) `{Pdec : !forall x, Decision (P x)}
  (l : list A) :
  (forall i j x y, l !! i = Some x -> l !! j = Some y -> P x -> P y ->
     i = j) ->
  length (filter P l) <= 1.
Proof.
  induction l as [|a l IH]; intros H; [simpl; lia|].
  rewrite filter_cons. destruct (decide (P a)) as [Pa|_].
  - rewrite (filter_none P l); [simpl; lia|].
    intros i x L Px. discriminate (H 0 (S i) a x eq_refl L Pa Px).
  - apply IH. intros i j x y Li Lj Px Py.
    pose proof (H (S i) (S j) x y Li Lj Px Py). lia.
Qed.

Section Hook.

Variable url : string.
Variable WebSocket_accepts : string -> bool.
Variable JSON_parse : string -> option Json.

Abbreviation connect := (UseWebSocket.connect url WebSocket_accepts).
Abbreviation step := (UseWebSocket.step url WebSocket_accepts JSON_parse).
Abbreviation run := (UseWebSocket.run url WebSocket_accepts JSON_parse).
Abbreviation mount := (UseWebSocket.mount url WebSocket_accepts).

Lemma run_app (es1 es2 : list Event) (s : State) :
  run (es1 ++ es2) s = run es1 s ≫= run es2.
Proof.
  revert s. induction es1 as [|e es1 IH]; intros s; [reflexivity|].
  simpl. destruct (step e s); [apply IH|reflexivity].
Qed.

Lemma connect_data (s : State) : data (connect s) = data s.
Proof.
  unfold UseWebSocket.connect. destruct (WebSocket_accepts url); reflexivity.
Qed.

Lemma single_connection_counts (s : State) :
  single_connection s -> live_count s + pending_count s <= 1.
Proof.
  intros [I1 I2]. unfold live_count, pending_count.
  destruct (filter (fun st => st <> CLOSED) (sockets s)) as [|st l] eqn:F.
  - simpl. apply filter_at_most_one.
    intros i j x y Li Lj Px Py.
    destruct x as [dx| |]; try discriminate.
    destruct y as [dy| |]; try discriminate.
    destruct (I2 i dx Li) as [Ri _]. destruct (I2 j dy Lj) as [Rj _].
    congruence.
  - assert (Hin : st ∈ filter (fun st => st <> CLOSED) (sockets s))
      by (rewrite F; apply list_elem_of_here).
    apply list_elem_of_filter in Hin as [Hst Hin].
    apply list_elem_of_lookup in Hin as [k Lk].
    destruct (I1 k st Lk Hst) as [_ P].
    rewrite (none_pending_filter s P). simpl.
    pose proof (filter_at_most_one (fun st => st <> CLOSED) (sockets s)) as U.
    rewrite F in U. rewrite Nat.add_0_r. apply U.
    intros i j x y Li Lj Px Py.
    destruct (I1 i x Li Px) as [Wi _]. destruct (I1 j y Lj Py) as [Wj _].
    congruence.
Qed.

(** X1: in every run of the hook without a manual reconnect, at most one
    thing is in flight at any time: one socket that is not closed, or one
    pending reconnect timeout, never both and never two of a kind. *)
Theorem at_most_one_in_flight (es : list Event) (s : State) :
  Forall (fun e => e <> ManualReconnect) es ->
  run es mount = Some s ->
  live_count s + pending_count s <= 1.
Proof.
  intros He Hr. apply single_connection_counts.
  exact (single_connection_run url WebSocket_accepts JSON_parse es mount s
           (single_connection_mount url WebSocket_accepts) He Hr).
Qed.

(** *** The automatic retry *)

Lemma State_ext (s s' : State) :
  data s = data s' -> connectionStatus s = connectionStatus s' ->
  error s = error s' -> ws s = ws s' ->
  reconnectTimeoutRef s = reconnectTimeoutRef s' ->
  sockets s = sockets s' -> timeouts s = timeouts s' ->
  clock s = clock s' -> s = s'.
Proof. destruct s, s'. simpl. congruence. Qed.

Lemma retry_round (n : nat) :
  WebSocket_accepts url = true ->
  run (retry n) (after_retries n) = Some (after_retries (S n)).
Proof.
  intros Hacc.
  assert (L : sockets (after_retries n) !! n = Some CONNECTING).
  { apply list_lookup_middle. rewrite length_replicate. reflexivity. }
  assert (I : <[n := CLOSED]> (sockets (after_retries n))
              = replicate (S n) CLOSED).
  { cbn [after_retries sockets]. rewrite replicate_S_end.
    replace n with (length (replicate n CLOSED) + 0) at 1
      by (rewrite length_replicate; lia).
    rewrite insert_app_r. reflexivity. }
  set (s1 := onclose (set_sockets (<[n := CLOSED]> (sockets (after_retries n)))
                        (after_retries n))).
  set (s2 := set_clock (clock s1 + 3000)%N s1).
  assert (T2 : timeouts s2
               = replicate n Fired ++ [Pending (3000 * N.of_nat n + 3000)%N])
    by reflexivity.
  assert (Lt : timeouts s2 !! n
               = Some (Pending (3000 * N.of_nat n + 3000)%N)).
  { rewrite T2. apply list_lookup_middle. rewrite length_replicate.
    reflexivity. }
  assert (It : <[n := Fired]> (timeouts s2) = replicate (S n) Fired).
  { rewrite T2, replicate_S_end.
    replace n with (length (replicate n Fired) + 0) at 1
      by (rewrite length_replicate; lia).
    rewrite insert_app_r. reflexivity. }
  assert (C2 : clock s2 = (3000 * N.of_nat n + 3000)%N) by reflexivity.
  unfold retry. cbn [UseWebSocket.run UseWebSocket.step]. rewrite L.
  fold s1. fold s2. rewrite Lt, C2.
  destruct (decide (3000 * N.of_nat n + 3000
                    <= 3000 * N.of_nat n + 3000)%N); [|lia].
  f_equal. apply State_ext.
  - rewrite connect_data. reflexivity.
  - rewrite connect_connectionStatus, Hacc. reflexivity.
  - unfold UseWebSocket.connect. rewrite Hacc. reflexivity.
  - rewrite connect_ws, Hacc. cbn [set_timeouts sockets].
    change (sockets s2) with (<[n := CLOSED]> (sockets (after_retries n))).
    rewrite I, length_replicate. reflexivity.
  - rewrite connect_reconnectTimeoutRef. cbn [set_timeouts reconnectTimeoutRef].
    change (reconnectTimeoutRef s2)
      with (Some (length (timeouts (after_retries n)))).
    cbn [after_retries timeouts]. rewrite length_replicate. reflexivity.
  - rewrite connect_sockets, Hacc. cbn [set_timeouts sockets].
    change (sockets s2) with (<[n := CLOSED]> (sockets (after_retries n))).
    rewrite I. reflexivity.
  - rewrite connect_timeouts. cbn [set_timeouts timeouts]. exact It.
  - unfold UseWebSocket.connect. rewrite Hacc.
    change (clock _) with (clock s2) at 1. rewrite C2.
    cbn [after_retries clock]. lia.
Qed.

(** X2: on a host that accepts the address the hook retries without end
    and at a fixed pace: whatever the number [n] of connections that
    closed, each 3 seconds after the previous attempt, the [n]-th retry
    has opened socket [n], the hook is connecting, and nothing else is in
    flight. *)
Theorem retries_without_end (n : nat) :
  WebSocket_accepts url = true ->
  exists s,
    run (retries n) mount = Some s /\
    sockets s = replicate n CLOSED ++ [CONNECTING] /\
    ws s = Some n /\
    connectionStatus s = connecting /\
    clock s = (3000 * N.of_nat n)%N /\
    live_count s = 1 /\
    pending_count s = 0.
Proof.
  intros Hacc. exists (after_retries n).
  split; [|split; [reflexivity|split; [reflexivity|split; [reflexivity|
    split; [reflexivity|split]]]]].
  - induction n as [|n IH].
    + unfold UseWebSocket.mount, UseWebSocket.connect. rewrite Hacc.
      reflexivity.
    + cbn [retries]. rewrite run_app, IH. simpl mbind.
      apply retry_round, Hacc.
  - unfold live_count. cbn [after_retries sockets].
    rewrite filter_app, (filter_none _ (replicate n CLOSED)); [reflexivity|].
    intros i x L Hx. apply lookup_replicate_1 in L as [-> _]. congruence.
  - unfold pending_count. cbn [after_retries timeouts].
    rewrite (filter_none _ (replicate n Fired)); [reflexivity|].
    intros i x L Hx. apply lookup_replicate_1 in L as [-> _]. discriminate.
Qed.

(** *** An address the constructor refuses *)

Lemma dead_step_elapse (e : Event) (s s' : State) :
  dead s -> host_event e = true -> step e s = Some s' ->
  exists ms, e = Elapse ms /\ s' = set_clock (clock s + ms)%N s.
Proof.
  intros Hd He Hs.
  destruct (dead_step url WebSocket_accepts JSON_parse e s s' Hd He Hs)
    as ([ms ->] & _). exists ms. split; [reflexivity|].
  simpl in Hs. congruence.
Qed.

(** X3: when [new WebSocket] throws, the hook ends up disconnected with
    the error set to the failed-to-connect message, owns no socket and has
    set no timeout; from there the host can only let time pass, so the
    hook never retries on its own. *)
Theorem refused_address_is_never_retried (es : list Event) (s : State) :
  WebSocket_accepts url = false ->
  forallb host_event es = true ->
  run es mount = Some s ->
  Forall is_elapse es /\
  connectionStatus s = disconnected /\
  error s = Some "Failed to connect" /\
  ws s = None /\ sockets s = [] /\ timeouts s = [].
Proof.
  intros Hacc He Hr.
  assert (Hm : connectionStatus mount = disconnected /\
               error mount = Some "Failed to connect" /\
               ws mount = None /\ sockets mount = [] /\ timeouts mount = []).
  { unfold UseWebSocket.mount, UseWebSocket.connect. rewrite Hacc.
    repeat split. }
  revert Hm Hr. generalize mount as s0. clear Hacc.
  induction es as [|e es IH]; intros s0 Hm Hr; simpl in Hr.
  - injection Hr as <-. split; [constructor|exact Hm].
  - apply andb_prop in He as [He Hes].
    destruct (step e s0) as [s1|] eqn:Hs; [|discriminate].
    assert (Hd : dead s0).
    { destruct Hm as (_ & _ & _ & S0 & T0).
      split; [unfold all_closed; rewrite S0|unfold none_pending; rewrite T0];
        constructor. }
    destruct (dead_step_elapse e s0 s1 Hd He Hs) as (ms & -> & ->).
    destruct (IH Hes (set_clock (clock s0 + ms)%N s0) Hm Hr) as [F R].
    split; [constructor; [exists ms; reflexivity|exact F]|exact R].
Qed.

(** *** Teardown of a connection that is still up *)

Lemma cleanup_of_live (s : State) (k : nat) (st : ReadyState) :
  ws s = Some k -> sockets s !! k = Some st ->
  st = CONNECTING \/ st = OPEN ->
  sockets (cleanup s) = <[k := CLOSING]> (sockets s) /\
  length (timeouts (cleanup s)) = length (timeouts s) /\
  clock (cleanup s) = clock s.
Proof.
  intros W L Hst. unfold cleanup.
  set (s1 := match reconnectTimeoutRef s with
             | Some t => clearTimeout t s
             | None => s
             end).
  assert (H1 : sockets s1 = sockets s /\ ws s1 = ws s /\
               length (timeouts s1) = length (timeouts s) /\
               clock s1 = clock s).
  { unfold s1. destruct (reconnectTimeoutRef s) as [t|]; [|auto].
    unfold clearTimeout. destruct (timeouts s !! t) as [[]|]; auto.
    simpl. rewrite length_insert. auto. }
  destruct H1 as (S1 & W1 & T1 & C1). rewrite W1, W.
  unfold WebSocket_close. rewrite S1, L.
  destruct Hst as [-> | ->]; simpl; auto.
Qed.

(** X4: the cleanup closes the socket but leaves its handlers in place.
    When the manager is torn down while its connection is connecting or
    open, the close event that follows runs the close handler, which sets
    a new reconnect timeout; 3 seconds later that timeout opens a new
    socket, after the teardown. *)
Theorem close_after_teardown_reconnects
  (s : State) (k : nat) (st : ReadyState) :
  WebSocket_accepts url = true ->
  ws s = Some k -> sockets s !! k = Some st ->
  st = CONNECTING \/ st = OPEN ->
  exists s1 s2 s3,
    run [Unmount] s = Some s1 /\
    sockets s1 = <[k := CLOSING]> (sockets s) /\
    run [SocketClose k] s1 = Some s2 /\
    pending_count s2 = S (pending_count s1) /\
    run [Elapse 3000; TimeoutFires (length (timeouts s))] s2 = Some s3 /\
    sockets s3 = <[k := CLOSED]> (sockets s) ++ [CONNECTING] /\
    ws s3 = Some (length (sockets s)) /\
    connectionStatus s3 = connecting.
Proof.
  intros Hacc W L Hst.
  destruct (cleanup_of_live s k st W L Hst) as (S1 & T1 & C1).
  pose proof (lookup_lt_Some _ _ _ L) as Hk.
  set (s1 := cleanup s) in *.
  assert (L1 : sockets s1 !! k = Some CLOSING).
  { rewrite S1. apply list_lookup_insert_eq, Hk. }
  set (s2 := onclose (set_sockets (<[k := CLOSED]> (sockets s1)) s1)).
  assert (T2 : timeouts s2 = timeouts s1 ++ [Pending (clock s1 + 3000)%N])
    by reflexivity.
  assert (S2 : sockets s2 = <[k := CLOSED]> (sockets s)).
  { unfold s2. simpl. rewrite S1. apply list_insert_insert_eq. }
  eexists s1, s2, _. split; [reflexivity|]. split; [exact S1|].
  split; [simpl; rewrite L1; reflexivity|].
  split.
  { unfold pending_count. rewrite T2, filter_app, length_app. simpl. lia. }
  assert (Lt : timeouts s2 !! length (timeouts s)
               = Some (Pending (clock s1 + 3000)%N)).
  { rewrite T2. apply list_lookup_middle. symmetry. exact T1. }
  split.
  { cbn [UseWebSocket.run UseWebSocket.step]. cbn [set_clock timeouts clock].
    rewrite Lt.
    change (clock s2) with (clock s1).
    destruct (decide (clock s1 + 3000 <= clock s1 + 3000)%N); [|lia].
    reflexivity. }
  rewrite connect_sockets, connect_ws, connect_connectionStatus, Hacc.
  cbn [set_timeouts set_clock sockets]. rewrite S2, length_insert.
  repeat split.
Qed.

(** *** The last reading *)

Lemma step_data (e : Event) (s s' : State) :
  step e s = Some s' -> data s' = data_after JSON_parse (data s) e.
Proof.
  destruct e as [k|k payload|k|k|t|ms| |]; simpl; intros Hs.
  - destruct (sockets s !! k) as [[]|]; try discriminate.
    injection Hs as <-. reflexivity.
  - destruct (sockets s !! k) as [[]|]; try discriminate.
    injection Hs as <-. unfold onmessage.
    destruct (JSON_parse payload); reflexivity.
  - destruct (sockets s !! k) as [[]|]; try discriminate;
      injection Hs as <-; reflexivity.
  - destruct (sockets s !! k) as [[]|]; try discriminate;
      injection Hs as <-; reflexivity.
  - destruct (timeouts s !! t) as [[due| |]|]; try discriminate.
    destruct (decide (due <= clock s)%N); [|discriminate].
    injection Hs as <-. rewrite connect_data. reflexivity.
  - injection Hs as <-. reflexivity.
  - injection Hs as <-. apply connect_data.
  - injection Hs as <-. unfold cleanup.
    assert (D1 : data (match reconnectTimeoutRef s with
                       | Some t => clearTimeout t s
                       | None => s
                       end) = data s).
    { destruct (reconnectTimeoutRef s) as [t|]; [|reflexivity].
      unfold clearTimeout. destruct (timeouts s !! t) as [[]|]; reflexivity. }
    rewrite <- D1.
    destruct (ws _) as [k|]; [|reflexivity]. unfold WebSocket_close.
    destruct (sockets _ !! k) as [[]|]; reflexivity.
Qed.

(** X5: the value the hook exposes in [data] is what the last message
    that parsed parsed to, whatever else happened since: closes, errors,
    retries, manual reconnects, payloads that do not parse and the
    teardown all leave it in place. *)
Theorem data_is_last_reading (es : list Event) (s s' : State) :
  run es s = Some s' ->
  data s' = last_reading JSON_parse es (data s).
Proof.
  revert s. induction es as [|e es IH]; intros s Hr; simpl in Hr.
  - injection Hr as <-. reflexivity.
  - destruct (step e s) as [s1|] eqn:Hs; [|discriminate].
    unfold last_reading. simpl. rewrite <- (step_data e s s1 Hs).
    exact (IH s1 Hr).
Qed.

(** X6: a stream of messages on an open socket is always accepted; it
    sets the error to the invalid-data message as soon as one payload does
    not parse, and no later payload that parses clears it; the connection
    state, the sockets and the timeouts are left as they were. *)
Theorem decode_error_is_sticky (k : nat) (payloads : list string)
  (s : State) :
  sockets s !! k = Some OPEN ->
  exists s',
    run (messages k payloads) s = Some s' /\
    error s' = (if forallb (parses JSON_parse) payloads then error s
                else Some "Invalid data format received") /\
    connectionStatus s' = connectionStatus s /\
    sockets s' = sockets s /\ timeouts s' = timeouts s.
Proof.
  revert s. induction payloads as [|p ps IH]; intros s L.
  - exists s. repeat split.
  - cbn [messages fmap list_fmap UseWebSocket.run UseWebSocket.step].
    rewrite L. fold (messages k ps). cbn [forallb].
    unfold onmessage. unfold parses at 1.
    destruct (JSON_parse p) as [r|]; cbn [andb].
    + destruct (IH (setData r s) L) as (s' & R & E & C & S & T).
      exists s'. split; [exact R|]. auto.
    + destruct (IH (setError (Some "Invalid data format received") s) L)
        as (s' & R & E & C & S & T).
      exists s'. split; [exact R|].
      split; [|auto]. rewrite E. cbn [setError error].
      destruct (forallb _ ps); reflexivity.
Qed.

(** *** The connection state shown *)

Lemma status_sound_step (e : Event) (s s' : State) :
  single_connection s -> host_event e = true -> step e s = Some s' ->
  ((connectionStatus s = connected ->
    exists k, ws s = Some k /\ sockets s !! k = Some OPEN) /\
   (connectionStatus s = connecting ->
    exists k, ws s = Some k /\ sockets s !! k = Some CONNECTING)) ->
  (connectionStatus s' = connected ->
   exists k, ws s' = Some k /\ sockets s' !! k = Some OPEN) /\
  (connectionStatus s' = connecting ->
   exists k, ws s' = Some k /\ sockets s' !! k = Some CONNECTING).
Proof.
  intros [I1 I2] He Hs [H1 H2].
  destruct e as [k|k payload|k|k|t|ms| |]; simpl in He, Hs;
    try discriminate.
  - destruct (sockets s !! k) as [[]|] eqn:L; try discriminate.
    injection Hs as <-. simpl. split; [intros _|discriminate].
    destruct (I1 k CONNECTING L) as [W _]; [discriminate|].
    exists k. split; [exact W|].
    apply list_lookup_insert_eq. exact (lookup_lt_Some _ _ _ L).
  - destruct (sockets s !! k) as [[]|] eqn:L; try discriminate.
    injection Hs as <-. unfold onmessage.
    destruct (JSON_parse payload); simpl; auto.
  - destruct (sockets s !! k) as [[]|] eqn:L; try discriminate;
      injection Hs as <-; simpl; split; discriminate.
  - destruct (sockets s !! k) as [[]|] eqn:L; try discriminate;
      injection Hs as <-; simpl; split; discriminate.
  - destruct (timeouts s !! t) as [[due| |]|] eqn:L; try discriminate.
    destruct (decide (due <= clock s)%N); [|discriminate].
    injection Hs as <-.
    rewrite connect_connectionStatus, connect_ws, connect_sockets.
    destruct (WebSocket_accepts url); simpl; split; try discriminate.
    intros _. eexists. split; [reflexivity|].
    apply list_lookup_middle. reflexivity.
  - injection Hs as <-. simpl. auto.
Qed.

(** X7: as long as no manual reconnect and no teardown happened, the
    connection state the hook shows is backed by its current socket:
    it shows connected only while the socket in [ws] is open, and
    connecting only while that socket is connecting. *)
Theorem shown_status_is_backed (es : list Event) (s : State) :
  forallb host_event es = true ->
  run es mount = Some s ->
  (connectionStatus s = connected ->
   exists k, ws s = Some k /\ sockets s !! k = Some OPEN) /\
  (connectionStatus s = connecting ->
   exists k, ws s = Some k /\ sockets s !! k = Some CONNECTING).
Proof.
  intros He Hr.
  assert (Hm : single_connection mount /\
               ((connectionStatus mount = connected ->
                 exists k, ws mount = Some k /\
                           sockets mount !! k = Some OPEN) /\
                (connectionStatus mount = connecting ->
                 exists k, ws mount = Some k /\
                           sockets mount !! k = Some CONNECTING))).
  { split; [apply single_connection_mount|].
    unfold UseWebSocket.mount, UseWebSocket.connect.
    destruct (WebSocket_accepts url); simpl; split; try discriminate.
    intros _. exists 0. split; reflexivity. }
  revert Hm Hr. generalize mount as s0.
  induction es as [|e es IH]; intros s0 [I0 H0] Hr; simpl in Hr.
  - injection Hr as <-. exact H0.
  - apply andb_prop in He as [He Hes].
    destruct (step e s0) as [s1|] eqn:Hs; [|discriminate].
    apply (IH Hes s1); [|exact Hr]. split.
    + apply (single_connection_step url WebSocket_accepts JSON_parse
               e s0 s1 I0); [|exact Hs].
      intros ->. discriminate.
    + exact (status_sound_step e s0 s1 I0 He Hs H0).
Qed.

End Hook.

(** *** The properties above on the feed *)

Lemma at_most_one_in_flight_witness :
  exists s,
    UseWebSocket.run feed accepts_all parse_sample
      (RunSamples.session ++ [Unmount])
      (UseWebSocket.mount feed accepts_all) = Some s /\
    live_count s + pending_count s <= 1.
Proof.
  eexists. split; [vm_compute; reflexivity|].
  apply (at_most_one_in_flight feed accepts_all parse_sample
           (RunSamples.session ++ [Unmount])).
  - repeat (constructor; [discriminate|]). constructor.
  - vm_compute. reflexivity.
Defined.

Lemma retries_without_end_witness :
  exists s,
    UseWebSocket.run feed accepts_all parses_nothing (retries 3)
      (UseWebSocket.mount feed accepts_all) = Some s /\
    sockets s = [CLOSED; CLOSED; CLOSED; CONNECTING] /\
    clock s = 9000%N.
Proof.
  destruct (retries_without_end feed accepts_all parses_nothing 3 eq_refl)
    as (s & R & S & _ & _ & C & _).
  exists s. split; [exact R|]. split; [exact S|exact C].
Defined.

Lemma refused_address_is_never_retried_witness :
  exists s,
    UseWebSocket.run feed RunSamples.refuses_all parses_nothing
      [Elapse 3000; Elapse 60000]
      (UseWebSocket.mount feed RunSamples.refuses_all) = Some s /\
    connectionStatus s = disconnected /\
    error s = Some "Failed to connect" /\
    sockets s = [].
Proof.
  eexists. split; [vm_compute; reflexivity|].
  destruct (refused_address_is_never_retried feed RunSamples.refuses_all
              parses_nothing [Elapse 3000; Elapse 60000] _
              eq_refl eq_refl eq_refl) as (_ & C & E & _ & S & _).
  split; [exact C|]. split; [exact E|exact S].
Defined.

Lemma close_after_teardown_reconnects_witness :
  exists s1 s2 s3,
    UseWebSocket.run feed accepts_all parses_nothing [Unmount]
      RunSamples.opened = Some s1 /\
    UseWebSocket.run feed accepts_all parses_nothing [SocketClose 0] s1
      = Some s2 /\
    UseWebSocket.run feed accepts_all parses_nothing
      [Elapse 3000; TimeoutFires 0] s2 = Some s3 /\
    sockets s3 = [CLOSED; CONNECTING].
Proof.
  destruct (close_after_teardown_reconnects feed accepts_all parses_nothing
              RunSamples.opened 0 OPEN eq_refl eq_refl eq_refl
              (or_intror eq_refl))
    as (s1 & s2 & s3 & R1 & _ & R2 & _ & R3 & S3 & _).
  exists s1, s2, s3. split; [exact R1|]. split; [exact R2|].
  split; [exact R3|exact S3].
Defined.

Lemma data_is_last_reading_witness :
  exists s,
    UseWebSocket.run feed accepts_all parse_sample
      (RunSamples.session ++ [ManualReconnect; Unmount])
      (UseWebSocket.mount feed accepts_all) = Some s /\
    data s = JsonReading (sample 72 36.5).
Proof.
  eexists. split; [vm_compute; reflexivity|].
  rewrite (data_is_last_reading feed accepts_all parse_sample
             (RunSamples.session ++ [ManualReconnect; Unmount])
             (UseWebSocket.mount feed accepts_all) _).
  - vm_compute. reflexivity.
  - vm_compute. reflexivity.
Defined.

Lemma decode_error_is_sticky_witness :
  exists s,
    UseWebSocket.run feed accepts_all parse_sample
      (messages 0 [good_payload; bad_payload; good_payload])
      RunSamples.opened = Some s /\
    error s = Some "Invalid data format received" /\
    connectionStatus s = connected.
Proof.
  destruct (decode_error_is_sticky feed accepts_all parse_sample 0
              [good_payload; bad_payload; good_payload]
              RunSamples.opened eq_refl) as (s & R & E & C & _).
  exists s. split; [exact R|]. split; [|exact C].
  rewrite E. vm_compute. reflexivity.
Defined.

Lemma shown_status_is_backed_witness :
  exists s,
    UseWebSocket.run feed accepts_all parse_sample RunSamples.session
      (UseWebSocket.mount feed accepts_all) = Some s /\
    connectionStatus s = connected /\
    exists k, ws s = Some k /\ sockets s !! k = Some OPEN.
Proof.
  eexists. split; [vm_compute; reflexivity|]. split; [reflexivity|].
  apply (shown_status_is_backed feed accepts_all parse_sample
           RunSamples.session).
  - reflexivity.
  - vm_compute. reflexivity.
  - reflexivity.
Defined.

End UseWebSocketRunsSpec.

(** ** The monitor view along whole runs *)

Module DashboardRunsSpec.
Import JsNumber Types HealthAlerts ECGMonitor Dashboard DashboardRuns Samples.


Section App.

Variable ToString : number -> string.
Variable toLocaleTimeString : string -> string.
Variable url : string.
Variable WebSocket_accepts : string -> bool.
Variable JSON_parse : string -> option Json.

Abbreviation dispatch :=
  (Dashboard.dispatch ToString toLocaleTimeString url WebSocket_accepts
     JSON_parse).
Abbreviation run :=
  (Dashboard.run ToString toLocaleTimeString url WebSocket_accepts
     JSON_parse).
Abbreviation start := (Dashboard.start url WebSocket_accepts).
Abbreviation entry :=
  (fun r => {| reading := r; time := toLocaleTimeString (timestamp r) |}).

(** The alerts are those of the newest entry of the history, and that
    entry is the reading of the last commit if that commit saw one. *)
Abbreviation follows a :=
  (forall m, view a = Typed m ->
     (m = ECGMonitor.initial \/
      exists r, alerts m = analyzeHealthData ToString r /\
                last (ecgHistory m) = Some (entry r) /\
                lastUpdate m <> None) /\
     (forall r, (rendered a).1 = JsonReading r ->
        alerts m = analyzeHealthData ToString r /\
        last (ecgHistory m) = Some (entry r) /\
        lastUpdate m <> None)).




End App.

(** X10: every alert the evaluator produces is rendered with one of the
    three severity classes, never with the fallback; it is rendered green
    exactly when it is the normal alert and red exactly when its severity
    is high. *)
Theorem alert_classes_of_evaluator (ToString : number -> string)
  (r : ECGReading) :
  Forall (fun a =>
            alert_class a <> "text-gray-600 bg-gray-50 border-gray-200" /\
            (alert_class a = "text-green-600 bg-green-50 border-green-200"
             <-> type a = normal) /\
            (alert_class a = "text-red-600 bg-red-50 border-red-200"
             <-> severity a = high))
    (analyzeHealthData ToString r).
Proof.
  rewrite (HealthAlertsSpec.evaluate_cases ToString r).
  destruct (gt (bpm r) 100), (lt (bpm r) 60), (gt (temperature r) 37.5),
    (gt (bpm r) 120), (lt (bpm r) 40), (gt (temperature r) 39);
    cbn [app orb]; repeat constructor; try discriminate;
    intros; discriminate.
Qed.


End DashboardRunsSpec.

(** ** The history view *)

Module ECGHistorySpec.
Import JsNumber Types HealthAlerts ECGHistory Samples HistorySamples.

(** X11: the status the history view prints for a reading is the list of
    the evaluator's alert kinds for it, joined by commas; it is "Normal"
    exactly when the evaluator yields the normal alert alone, and the row
    is green exactly then. *)
Theorem history_status_agrees_with_evaluator
  (ToString : number -> string) (r : ECGReading) :
  getHealthStatus r =
    join ", " (status_label <$> (type <$> analyzeHealthData ToString r)) /\
  (getHealthStatus r = "Normal" <->
   type <$> analyzeHealthData ToString r = [normal]) /\
  (getStatusColor r
     = "text-green-600 bg-green-50 dark:text-green-200 dark:bg-green-900"
   <-> getHealthStatus r = "Normal").
Proof.
  rewrite (HealthAlertsSpec.evaluate_cases ToString r).
  unfold getHealthStatus, getStatusColor, push.
  destruct (gt (bpm r) 100), (lt (bpm r) 60), (gt (temperature r) 37.5);
    cbn; repeat split; intros; try reflexivity; discriminate.
Qed.

(** X12: the patient name shown for a code is "Unknown" when no
    registered patient has that code, and otherwise the name of the first
    patient registered with it. *)
Theorem getPatientName_first_match
  (patients : list Patients.Patient) (code : string) :
  (Forall (fun p => Patients.patientCode p <> code) patients ->
   getPatientName patients code = "Unknown") /\
  (forall before p after,
     patients = before ++ p :: after ->
     Patients.patientCode p = code ->
     Forall (fun q => Patients.patientCode q <> code) before ->
     getPatientName patients code = Patients.name p).
Proof.
  unfold getPatientName. split.
  - induction 1 as [|q l Hq _ IH]; [reflexivity|].
    simpl. rewrite bool_decide_eq_false_2 by exact Hq. exact IH.
  - intros before p after -> Hp Hb.
    induction Hb as [|q l Hq _ IH]; simpl.
    + rewrite bool_decide_eq_true_2 by exact Hp. reflexivity.
    + rewrite bool_decide_eq_false_2 by exact Hq. exact IH.
Qed.

Section View.

Variable toLowerCase : string -> string.
Variable getTime : string -> number.
Variable Array_sort :
  (ECGReading -> ECGReading -> number) -> list ECGReading -> list ECGReading.

Abbreviation shown := (filteredReadings toLowerCase getTime Array_sort).

(** X13: provided sorting permutes, the rows shown are exactly the
    fetched readings that belong to the selected patient, if one is
    selected, and match the search term, if there is one; a reading
    without patient code is never shown for a selected patient; and with
    neither filter every fetched reading is shown. *)
Theorem shown_rows_are_the_matching_readings
  (readings : list ECGReading) (searchTerm selectedPatient : string)
  (sortOrder : SortOrder) :
  (forall compare arr, Array_sort compare arr ≡ₚ arr) ->
  (forall r,
     r ∈ shown readings searchTerm selectedPatient sortOrder <->
     r ∈ readings /\
     (truthy selectedPatient = true ->
      Types.patientCode r = Some selectedPatient) /\
     (truthy searchTerm = true ->
      matchesSearch toLowerCase searchTerm r = true)) /\
  length (shown readings searchTerm selectedPatient sortOrder)
    <= length readings /\
  (selectedPatient = "" -> searchTerm = "" ->
   shown readings searchTerm selectedPatient sortOrder ≡ₚ readings).
Proof.
  intros Hsort. unfold filteredReadings.
  split; [|split].
  - intros r. rewrite (Hsort _ _).
    destruct (truthy selectedPatient), (truthy searchTerm);
      rewrite ?list_elem_of_filter; unfold matchesPatient;
      rewrite ?bool_decide_eq_true; intuition congruence.
  - rewrite (Hsort _ _).
    destruct (truthy selectedPatient), (truthy searchTerm);
      repeat (etransitivity; [apply length_filter|]); reflexivity.
  - intros -> ->. simpl. apply Hsort.
Qed.

End View.

Lemma sort_by_sign_permutes
  (compare : ECGReading -> ECGReading -> number) (arr : list ECGReading) :
  sort_by_sign compare arr ≡ₚ arr.
Proof. apply merge_sort_Permutation. Qed.

Lemma shown_rows_are_the_matching_readings_witness :
  length (filteredReadings keep_case time_by_length sort_by_sign
            fetched "" "PT-001" desc) <= 4 /\
  filteredReadings keep_case time_by_length sort_by_sign
    fetched "" "" asc ≡ₚ fetched.
Proof.
  destruct (shown_rows_are_the_matching_readings keep_case time_by_length
              sort_by_sign fetched "" "PT-001" desc sort_by_sign_permutes)
    as (_ & L & _).
  destruct (shown_rows_are_the_matching_readings keep_case time_by_length
              sort_by_sign fetched "" "" asc sort_by_sign_permutes)
    as (_ & _ & P).
  split; [exact L|exact (P eq_refl eq_refl)].
Defined.

(** The sample history: the patient filter, and a name lookup. *)
Example shown_for_ana :
  bpm <$> filteredReadings keep_case time_by_length sort_by_sign
            fetched "" "PT-001" asc = [72%float; 90%float].
Proof. vm_compute. reflexivity. Qed.

Example names_of_codes :
  getPatientName [ana; ben] "PT-002" = "Ben Okoye" /\
  getPatientName [ana; ben] "" = "Unknown".
Proof. split; reflexivity. Qed.

End ECGHistorySpec.

(** ** The AI predictor *)

Module GeminiPredictorSpec.
Import JsNumber Types GeminiApi GeminiPredictor Samples.

(** [slice(0, n)] keeps the first [n] elements. *)
Lemma slice_first {A} (n : nat) (arr : list A) :
  slice 0 (Z.of_nat n) arr = take n arr.
Proof.
  unfold slice. cbn [Z.ltb Z.compare].
  destruct (Z.ltb_spec (Z.of_nat n) 0) as [H|_]; [lia|].
  rewrite (Z.min_l 0) by lia. cbn [Z.to_nat]. rewrite drop_0, Z.sub_0_r.
  destruct (decide (n <= length arr)) as [Hn|Hn].
  - rewrite Z.min_l, Z.max_l, Nat2Z.id by lia. reflexivity.
  - rewrite Z.min_r, Z.max_l, Nat2Z.id by lia.
    rewrite !take_ge by lia. reflexivity.
Qed.

Section Component.

Variable ToString : number -> string.

Abbreviation predictionId := (GeminiPredictor.predictionId ToString).
Abbreviation handleAnalyze_begin :=
  (GeminiPredictor.handleAnalyze_begin ToString).
Abbreviation step := (GeminiPredictor.step ToString).
Abbreviation run := (GeminiPredictor.run ToString).
Abbreviation pending :=
  (fun now isoNow => {| id := predictionId now; prediction := "";
                        timestamp := isoNow; isLoading := true;
                        error := None |}).

Lemma begin_predictions (now : number) (isoNow : string) (s : State) :
  predictions (handleAnalyze_begin now isoNow s)
  = pending now isoNow :: take 4 (predictions s).
Proof.
  unfold GeminiPredictor.handleAnalyze_begin. cbn [predictions].
  change 5%Z with (Z.of_nat 5). rewrite slice_first. reflexivity.
Qed.

Lemma settle_length (pid : string) (result : Settled) (s : State) :
  length (predictions (handleAnalyze_settle pid result s))
  = length (predictions s).
Proof. destruct result; simpl; apply length_fmap. Qed.

Lemma settle_absent (pid : string) (result : Settled) (s : State) :
  Forall (fun p => id p <> pid) (predictions s) ->
  predictions (handleAnalyze_settle pid result s) = predictions s.
Proof.
  intros H. destruct result as [text|err]; simpl;
    (etransitivity; [|apply list_fmap_id]);
    apply Forall_fmap_ext; (eapply Forall_impl; [exact H|]);
    intros p Hp; simpl; destruct (decide (id p = pid)); congruence.
Qed.

Lemma run_snoc (es : list Event) (e : Event) (s : State) :
  run (es ++ [e]) s = step e (run es s).
Proof. unfold GeminiPredictor.run. rewrite foldl_snoc. reflexivity. Qed.

(** X14: the component never shows more than 5 predictions, whatever
    analyses start and settle; a new analysis is put first, in front of
    the 4 most recent ones, and the fifth is dropped. *)
Theorem at_most_five_predictions (es : list Event)
  (now : number) (isoNow : string) (s : State) :
  length (predictions (run es initial)) <= 5 /\
  predictions (handleAnalyze_begin now isoNow s)
    = pending now isoNow :: take 4 (predictions s).
Proof.
  split; [|apply begin_predictions].
  induction es as [|e es IH] using rev_ind; [simpl; lia|].
  rewrite run_snoc. destruct e as [t iso|t r m]; cbn [GeminiPredictor.step].
  - rewrite begin_predictions. cbn [length]. rewrite length_take. lia.
  - rewrite settle_length. exact IH.
Qed.

(** X15: whatever the model does, the only error the component ever
    reports, for the component as for each prediction, is the message
    [generateHealthPrediction] throws: the fallback message of
    [handleAnalyze] is never used. *)
Theorem only_the_api_failure_is_reported (es : list Event) :
  (failure (run es initial) = None \/
   failure (run es initial) = Some api_failure) /\
  Forall (fun p => error p = None \/ error p = Some api_failure)
    (predictions (run es initial)).
Proof.
  induction es as [|e es [IHf IHp]] using rev_ind.
  - split; [left; reflexivity|constructor].
  - rewrite run_snoc. destruct e as [t iso|t r m];
      cbn [GeminiPredictor.step].
    + split; [left; reflexivity|]. rewrite begin_predictions.
      constructor; [left; reflexivity|]. apply Forall_take, IHp.
    + unfold generateHealthPrediction.
      destruct (m _) as [text|]; cbn [handleAnalyze_settle failure predictions].
      * split; [exact IHf|]. apply Forall_fmap.
        eapply Forall_impl; [exact IHp|]. intros p Hp. simpl.
        destruct (decide _); [exact Hp|exact Hp].
      * split; [right; reflexivity|]. apply Forall_fmap.
        eapply Forall_impl; [exact IHp|]. intros p Hp. simpl.
        destruct (decide _); [right; reflexivity|exact Hp].
Qed.

(** X16: settling an analysis keeps the number, the order and the ids of
    the predictions; it changes only the predictions that carry its id,
    which are no longer loading afterwards; and when no prediction
    carries its id, nothing changes in the list. *)
Theorem settle_touches_only_its_id (pid : string) (result : Settled)
  (s : State) :
  id <$> predictions (handleAnalyze_settle pid result s)
    = id <$> predictions s /\
  (forall i p, predictions s !! i = Some p -> id p <> pid ->
     predictions (handleAnalyze_settle pid result s) !! i = Some p) /\
  Forall (fun p => id p = pid -> isLoading p = false)
    (predictions (handleAnalyze_settle pid result s)) /\
  (Forall (fun p => id p <> pid) (predictions s) ->
   predictions (handleAnalyze_settle pid result s) = predictions s).
Proof.
  split; [|split; [|split]].
  - destruct result; simpl; rewrite <- list_fmap_compose;
      apply list_fmap_ext; intros i p _; simpl;
      destruct (decide (id p = pid)); reflexivity.
  - intros i p L Hp. destruct result; simpl; rewrite list_lookup_fmap, L;
      simpl; destruct (decide (id p = pid)); congruence.
  - destruct result; simpl; apply Forall_fmap, Forall_forall;
      intros p _; simpl; destruct (decide (id p = pid)); simpl; congruence.
  - apply settle_absent.
Qed.

(** The list after a burst of analyses: the newest first, at most 5. *)
Lemma begins_predictions (later : list (number * string)) (s : State) :
  length (predictions s) <= 5 ->
  predictions (run (uncurry Begin <$> later) s)
  = take 5 (reverse (uncurry pending <$> later) ++ predictions s).
Proof.
  intros Hs. induction later as [|[t iso] later IH] using rev_ind.
  - simpl. rewrite take_ge by exact Hs. reflexivity.
  - rewrite !fmap_app. cbn [fmap list_fmap]. rewrite run_snoc, reverse_snoc.
    cbn [uncurry fst snd GeminiPredictor.step].
    rewrite begin_predictions, IH, take_take. reflexivity.
Qed.

(** X17: a result that comes late is dropped: once 5 more analyses have
    started after an analysis, under other ids, its prediction is no
    longer in the list, and when it settles, with text or with an error,
    no prediction changes. *)
Theorem late_result_is_dropped (now : number) (isoNow : string)
  (later : list (number * string)) (result : Settled) (s : State) :
  5 <= length later ->
  Forall (fun t => predictionId t.1 <> predictionId now) later ->
  predictions
    (handleAnalyze_settle (predictionId now) result
       (run (uncurry Begin <$> later) (handleAnalyze_begin now isoNow s)))
  = predictions
      (run (uncurry Begin <$> later) (handleAnalyze_begin now isoNow s)).
Proof.
  intros Hlen Hids. apply settle_absent.
  rewrite begins_predictions
    by (rewrite begin_predictions; cbn [length]; rewrite length_take; lia).
  rewrite take_app_le
    by (rewrite length_reverse, length_fmap; exact Hlen).
  apply Forall_take, Forall_reverse, Forall_fmap.
  eapply Forall_impl; [exact Hids|]. intros [t iso] Ht. exact Ht.
Qed.

End Component.

Lemma late_result_is_dropped_witness :
  let busy :=
    GeminiPredictor.run PredictorSamples.stamp
      (uncurry Begin <$> PredictorSamples.burst)
      (GeminiPredictor.handleAnalyze_begin PredictorSamples.stamp
         0 "2024-03-01T10:00:00.000Z" initial) in
  predictions
    (handleAnalyze_settle
       (GeminiPredictor.predictionId PredictorSamples.stamp 0)
       (Resolved "Sinus rhythm, no acute findings.") busy)
  = predictions busy /\
  length (predictions busy) = 5.
Proof.
  cbv zeta. split; [|vm_compute; reflexivity].
  apply (late_result_is_dropped PredictorSamples.stamp
           0 "2024-03-01T10:00:00.000Z" PredictorSamples.burst).
  - simpl. lia.
  - repeat (constructor; [vm_compute; discriminate|]). constructor.
Defined.

(** A model that is down: the prediction shows the API's message. *)
Example analysis_fails :
  let s := GeminiPredictor.run PredictorSamples.stamp
             [Begin 0 "2024-03-01T10:00:00.000Z";
              Settle 0 (sample 72 36.5) PredictorSamples.model_down]
             initial in
  failure s = Some api_failure /\ loading s = false /\
  (fun p => (error p, isLoading p)) <$> predictions s
    = [(Some api_failure, false)].
Proof. vm_compute. repeat split. Qed.

End GeminiPredictorSpec.

(** ** The application shell *)

Module AppSpec.
Import Patients App HistorySamples.

Lemma step_registeredPatients (e : Event) (s s' : State) :
  step e s = Some s' ->
  registeredPatients s' =
    registeredPatients s ++ from_option (fun p => [p]) [] (registered_by e).
Proof.
  destruct e as [p|v|tab| |t|ms]; simpl; intros Hs;
    try (injection Hs as <-; simpl; rewrite ?app_nil_r; reflexivity).
  destruct (timeouts s !! t) as [[due| |]|]; try discriminate.
  destruct (decide (due <= clock s)%N); [|discriminate].
  injection Hs as <-. simpl. rewrite app_nil_r. reflexivity.
Qed.

Lemma step_selectedPatient (e : Event) (s s' : State) :
  step e s = Some s' ->
  (forall p, selectedPatient s = Some p -> p ∈ registeredPatients s) ->
  forall p, selectedPatient s' = Some p -> p ∈ registeredPatients s'.
Proof.
  intros Hs I p.
  rewrite (step_registeredPatients e s s' Hs).
  destruct e as [q|v|tab| |t|ms]; simpl in Hs.
  - injection Hs as <-. simpl. intros [= <-].
    apply elem_of_app. right. apply list_elem_of_here.
  - injection Hs as <-. simpl. rewrite app_nil_r. intros F.
    apply List.find_some in F as [F _]. apply list_elem_of_In. exact F.
  - injection Hs as <-. simpl. rewrite app_nil_r. apply I.
  - injection Hs as <-. simpl. rewrite app_nil_r. apply I.
  - destruct (timeouts s !! t) as [[due| |]|]; try discriminate.
    destruct (decide (due <= clock s)%N); [|discriminate].
    injection Hs as <-. simpl. rewrite app_nil_r. apply I.
  - injection Hs as <-. simpl. rewrite app_nil_r. apply I.
Qed.

(** X18: over any run of the application shell, the registered patients
    are exactly the patients registered so far, in order of registration
    (none is ever removed or reordered), and the selected patient, when
    there is one, is one of them. *)
Theorem selected_patient_is_registered (es : list Event) (s : State) :
  run es initial = Some s ->
  registeredPatients s = omap registered_by es /\
  (forall p, selectedPatient s = Some p -> p ∈ registeredPatients s).
Proof.
  assert (G : forall es s0 s1,
            run es s0 = Some s1 ->
            (forall p, selectedPatient s0 = Some p ->
                       p ∈ registeredPatients s0) ->
            registeredPatients s1
              = registeredPatients s0 ++ omap registered_by es /\
            (forall p, selectedPatient s1 = Some p ->
                       p ∈ registeredPatients s1)).
  { clear. induction es as [|e es IH]; intros s0 s1 Hr I; simpl in Hr.
    - injection Hr as <-. simpl. rewrite app_nil_r. auto.
    - destruct (step e s0) as [s'|] eqn:Hs; [|discriminate].
      destruct (IH s' s1 Hr (step_selectedPatient e s0 s' Hs I)) as [R S].
      split; [|exact S].
      rewrite R, (step_registeredPatients e s0 s' Hs), <- app_assoc.
      f_equal. cbn [omap list_omap].
      destruct (registered_by e); reflexivity. }
  intros Hr. destruct (G es initial s Hr) as [R S]; [discriminate|].
  split; [exact R|exact S].
Qed.

Lemma selected_patient_is_registered_witness :
  exists s,
    run [PatientRegistered ana; TabClicked history; Elapse 2000;
         TimeoutFires 0; PatientRegistered ben; PatientSelected "p1";
         PatientSelected ""] initial = Some s /\
    registeredPatients s = [ana; ben] /\
    selectedPatient s = None /\
    activeTab s = monitor.
Proof.
  eexists. split; [vm_compute; reflexivity|].
  destruct (selected_patient_is_registered
              [PatientRegistered ana; TabClicked history; Elapse 2000;
               TimeoutFires 0; PatientRegistered ben; PatientSelected "p1";
               PatientSelected ""] _ ltac:(vm_compute; reflexivity))
    as [R _].
  split; [exact R|]. split; reflexivity.
Defined.

End AppSpec.

(** ** Fetching the history *)

Module ECGHistoryFetchSpec.
Import Types GeminiApi ECGHistoryFetch HistorySamples.

Lemma refresh_run_snoc (es : list Event) (e : Event) (s : State) :
  run (es ++ [e]) s = step e (run es s).
Proof. unfold run. rewrite foldl_snoc. reflexivity. Qed.

(** X19: a refresh that fails keeps the readings fetched before and
    shows why it failed; a refresh that succeeds replaces them and clears
    the error.  Over any sequence of refreshes the readings are those of
    the last request that succeeded, and once a request has ended the
    view is not loading and its error is that of this request. *)
Theorem failed_refresh_keeps_readings (es : list Event) (s : State) :
  readings (run es s) = foldl readings_after (readings s) es /\
  (forall es' result, es = es' ++ [Settle result] ->
     isLoading (run es s) = false /\
     error (run es s) = failure_message result).
Proof.
  split.
  - induction es as [|e es IH] using rev_ind; [reflexivity|].
    rewrite refresh_run_snoc, foldl_snoc, <- IH.
    destruct e as [|[[]| |[]|]]; reflexivity.
  - intros es' result ->. rewrite refresh_run_snoc.
    destruct result as [[]| |[]|]; split; reflexivity.
Qed.

(** A server error after a good fetch: the rows stay, the error shows. *)
Example refresh_fails_after_fetch :
  let s := run [Settle (Ok fetched); Begin; Settle NotOk] initial in
  readings s = fetched /\ isLoading s = false /\
  error s = Some "Failed to fetch ECG history".
Proof. repeat split. Qed.

End ECGHistoryFetchSpec.
